(** * emuai-1.0: the two virtual machines of the repository

    The repository holds two variants of one small MIPS-like machine:
    - [EMAUI0.2.py]: memory map (RDRAM and PIF ROM on numpy arrays),
      a decoder that returns a closure per instruction, a numpy
      framebuffer with a rectangle primitive, a guarded run loop;
    - [FlamesVM64.py]: one flat bytearray, an executor without a decode
      stage, a Jump opcode, a pixel primitive, an unguarded run loop.

    Both are embedded below, each in a module named after its file.
    Python integers are [Z]; numpy's fixed-width scalars are [Z] with the
    wrap-around written out; methods that mutate [self] and may raise are
    computations in a state-and-exception monad, where a raised exception
    keeps the state reached so far (Python does not roll back). *)

From Stdlib Require Import ZArith List Lia Bool.
From Stdlib Require String.
Import ListNotations.
Local Open Scope Z_scope.

(** ** Exceptions raised by the two programs *)

Inductive exn : Type :=
| MemoryError_invalid (address : Z)  (* MemoryError("Invalid memory ... at address: 0x...") *)
| MemoryError_pif_rom                (* MemoryError("Cannot write to PIF ROM") *)
| ValueError_unknown_opcode (opcode : Z) (* ValueError("Unknown opcode: ...") *)
| ValueError_literal                 (* ValueError("invalid literal for int() with base 10: ...") *)
| StructError                        (* struct.error: wrong buffer size or value range *)
| TypeError_not_callable             (* calling None *)
| OverflowError                      (* OverflowError("Python integer ... out of bounds for uint32") *)
| IndexError.                        (* index out of range *)

(** ** State and exception monad *)

Inductive outcome (S A : Type) : Type :=
| Ok (a : A) (s : S)
| Raise (e : exn) (s : S).
Arguments Ok {S A} a s.
Arguments Raise {S A} e s.

Definition M (S A : Type) : Type := S -> outcome S A.

Definition ret {S A} (a : A) : M S A := fun s => Ok a s.

Definition bind {S A B} (c : M S A) (k : A -> M S B) : M S B :=
  fun s => match c s with
           | Ok a s' => k a s'
           | Raise e s' => Raise e s'
           end.

Definition raise {S A} (e : exn) : M S A := fun s => Raise e s.

Definition get {S} : M S S := fun s => Ok s s.

Definition modify {S} (f : S -> S) : M S unit := fun s => Ok tt (f s).

(** Runs a computation on a component of the state (an attribute of [self]). *)
Definition zoom {S T A} (proj : S -> T) (upd : T -> S -> S) (c : M T A) : M S A :=
  fun s => match c (proj s) with
           | Ok a t => Ok a (upd t s)
           | Raise e t => Raise e (upd t s)
           end.

Definition final_state {S A} (o : outcome S A) : S :=
  match o with Ok _ s => s | Raise _ s => s end.

Definition raised {S A} (o : outcome S A) : option exn :=
  match o with Ok _ _ => None | Raise e _ => Some e end.

Definition returned {S A} (o : outcome S A) : option A :=
  match o with Ok a _ => Some a | Raise _ _ => None end.

Declare Scope monad_scope.
Delimit Scope monad_scope with monad.
Notation "x <- c ;; k" := (bind c (fun x => k))
  (at level 61, c at next level, right associativity) : monad_scope.
Notation "c ;;; k" := (bind c (fun _ => k))
  (at level 61, right associativity) : monad_scope.
Local Open Scope monad_scope.

(** ** Integers of fixed width *)

Definition uint8 (z : Z) : Z := z mod 2 ^ 8.
Definition uint16 (z : Z) : Z := z mod 2 ^ 16.
Definition uint32 (z : Z) : Z := z mod 2 ^ 32.

(** ** numpy's releases

    The repository names no release of numpy, and one line of it depends
    on the release: the sum of a [uint32] scalar and a Python integer.
    Up to NumPy 1.x the type of the result follows the integer's value,
    and a negative one promotes the sum to [int64], where it is exact.
    From NumPy 2 the integer is converted to [uint32] first, and one
    that does not fit raises [OverflowError]. *)
Inductive numpy_release : Type := NumPy_1 | NumPy_2.
Existing Class numpy_release.

(** [range lo n] is Python's [range(lo, lo + n)]. *)
Definition range (lo : Z) (n : nat) : list Z :=
  map (fun i => lo + Z.of_nat i) (seq 0 n).

(** ** The [struct] module, format [>I] (big-endian unsigned 32-bit) *)

Module Struct.

(** [struct.pack('>I', value)]: four bytes, most significant first;
    [struct.error] when the value is not an unsigned 32-bit integer. *)
Definition pack_I (value : Z) : option (list Z) :=
  if (0 <=? value) && (value <? 2 ^ 32) then
    Some [Z.land (Z.shiftr value 24) 255;
          Z.land (Z.shiftr value 16) 255;
          Z.land (Z.shiftr value 8) 255;
          Z.land value 255]
  else None.

(** [struct.unpack('>I', buffer)[0]]: [struct.error] unless the buffer
    holds exactly four bytes. *)
Definition unpack_I (buffer : list Z) : option Z :=
  match buffer with
  | [b0; b1; b2; b3] =>
      Some (Z.lor (Z.shiftl b0 24)
              (Z.lor (Z.shiftl b1 16) (Z.lor (Z.shiftl b2 8) b3)))
  | _ => None
  end.

End Struct.

(** ** numpy arrays of fixed length

    A one-dimensional array is given by its cells; its length is fixed at
    creation and kept beside it ([np.zeros(n)] is [zeros], of length n). *)

Module Numpy.

Definition ndarray : Type := Z -> Z.

Definition zeros : ndarray := fun _ => 0.

(** [a[i] = v], for an index inside the array. *)
Definition store (a : ndarray) (i v : Z) : ndarray :=
  fun j => if j =? i then v else a j.

(** [a[lo:hi]] for [0 <= lo]: the slice is clipped to the array's length. *)
Definition slice (size : Z) (a : ndarray) (lo hi : Z) : list Z :=
  map a (range lo (Z.to_nat (Z.min hi size - lo))).

(** The bytes a decimal literal can begin with, as Python's [int()] reads
    one: white space (HT, LF, VT, FF, CR, space), a sign, a digit. *)
Definition literal_start (b : Z) : bool :=
  ((0x09 <=? b) && (b <=? 0x0D)) || (b =? 0x20) || (b =? 0x2B) || (b =? 0x2D)
  || ((0x30 <=? b) && (b <=? 0x39)).

(** The ASCII digits, and the number a string of digits spells. *)
Definition digit (b : Z) : bool := (0x30 <=? b) && (b <=? 0x39).

Definition decimal (b : list Z) : Z :=
  fold_left (fun n d => 10 * n + (d - 0x30)) b 0.

(** [a[lo:hi] = v] for a scalar [v] and [0 <= lo]: [v] goes to every cell
    of the slice, which is clipped to the array's length. *)
Definition fill (size : Z) (a : ndarray) (lo hi v : Z) : ndarray :=
  fun j => if (lo <=? j) && (j <? Z.min hi size) then v else a j.

Section BytesStore.

(** [a[lo:hi] = b] for a [bytes] object [b]. numpy does not take a bytes
    object for a sequence of cells: it is one string scalar, which the
    store converts to an integer the way [int()] reads a decimal literal,
    and the integer goes to every cell of the slice. A string that does
    not begin like a literal is refused with [ValueError]; a string of
    digits that spells a number up to 255 stores that number. What is
    stored for the other strings (signs, white space, underscores, a
    number over 255) is not fixed here: it is [store_literal]. *)
Variable store_literal : Z -> ndarray -> Z -> Z -> list Z -> ndarray + exn.

Definition store_slice_bytes (size : Z) (a : ndarray) (lo hi : Z) (b : list Z)
  : ndarray + exn :=
  match b with
  | [] => inr ValueError_literal
  | b0 :: _ =>
      if literal_start b0 then
        if forallb digit b && (decimal b <=? 255)
        then inl (fill size a lo hi (decimal b))
        else store_literal size a lo hi b
      else inr ValueError_literal
  end.

End BytesStore.

End Numpy.

(** * EMAUI0.2.py *)

Module EMAUI.

(** ** class Memory *)

Definition RDRAM_SIZE : Z := 8 * 1024 * 1024.
Definition RDRAM_START : Z := 0x00000000.
Definition RDRAM_END : Z := RDRAM_START + RDRAM_SIZE - 1.

Definition PIF_ROM_START : Z := 0x1FC00000.
Definition PIF_ROM_SIZE : Z := 2048.
Definition PIF_ROM_END : Z := PIF_ROM_START + PIF_ROM_SIZE - 1.

Inductive region : Type := RDRAM | PIF_ROM.

Record Memory : Type := mkMemory {
  rdram : Numpy.ndarray;     (* np.zeros(RDRAM_SIZE, dtype=np.uint8) *)
  pif_rom : Numpy.ndarray;   (* np.zeros(PIF_ROM_SIZE, dtype=np.uint8) *)
  reads : Z;
  writes : Z
}.

Definition Memory_init : Memory :=
  mkMemory Numpy.zeros Numpy.zeros 0 0.

Definition set_rdram (a : Numpy.ndarray) (m : Memory) : Memory :=
  mkMemory a (pif_rom m) (reads m) (writes m).
Definition add_reads (n : Z) (m : Memory) : Memory :=
  mkMemory (rdram m) (pif_rom m) (reads m + n) (writes m).
Definition add_writes (n : Z) (m : Memory) : Memory :=
  mkMemory (rdram m) (pif_rom m) (reads m) (writes m + n).

(** The length and the array of a region, for the statements below. *)
Definition region_size (r : region) : Z :=
  match r with RDRAM => RDRAM_SIZE | PIF_ROM => PIF_ROM_SIZE end.

Definition region_array (r : region) (m : Memory) : Numpy.ndarray :=
  match r with RDRAM => rdram m | PIF_ROM => pif_rom m end.

Definition map_address (address : Z) : M Memory (region * Z) :=
  if (RDRAM_START <=? address) && (address <=? RDRAM_END) then
    ret (RDRAM, address - RDRAM_START)
  else if (PIF_ROM_START <=? address) && (address <=? PIF_ROM_END) then
    ret (PIF_ROM, address - PIF_ROM_START)
  else raise (MemoryError_invalid address).

Definition read_byte (address : Z) : M Memory Z :=
  ro <- map_address address ;;
  let (region, offset) := ro : region * Z in
  modify (add_reads 1) ;;;
  m <- get ;;
  match region with
  | RDRAM => ret (rdram m offset)
  | PIF_ROM => ret (pif_rom m offset)
  end.

Definition write_byte (address value : Z) : M Memory unit :=
  ro <- map_address address ;;
  let (region, offset) := ro : region * Z in
  modify (add_writes 1) ;;;
  match region with
  | RDRAM => modify (fun m => set_rdram (Numpy.store (rdram m) offset (Z.land value 0xFF)) m)
  | PIF_ROM => raise MemoryError_pif_rom
  end.

(** [struct.unpack] of a slice: the slice is shorter than four cells
    when [offset + 4] passes the end of the array. *)
Definition unpack_slice (size : Z) (a : Numpy.ndarray) (offset : Z) : M Memory Z :=
  match Struct.unpack_I (Numpy.slice size a offset (offset + 4)) with
  | Some word => ret word
  | None => raise StructError
  end.

Definition read_word (address : Z) : M Memory Z :=
  ro <- map_address address ;;
  let (region, offset) := ro : region * Z in
  modify (add_reads 4) ;;;
  m <- get ;;
  match region with
  | RDRAM => unpack_slice RDRAM_SIZE (rdram m) offset
  | PIF_ROM => unpack_slice PIF_ROM_SIZE (pif_rom m) offset
  end.

Section WriteWord.

(** What numpy stores for a string that begins like a decimal literal
    (see [Numpy.store_slice_bytes]). *)
Variable store_literal : Z -> Numpy.ndarray -> Z -> Z -> list Z -> Numpy.ndarray + exn.

Definition write_word (address value : Z) : M Memory unit :=
  ro <- map_address address ;;
  let (region, offset) := ro : region * Z in
  modify (add_writes 4) ;;;
  m <- get ;;
  match region with
  | RDRAM =>
      match Struct.pack_I value with
      | None => raise StructError
      | Some bytes =>
          match Numpy.store_slice_bytes store_literal RDRAM_SIZE (rdram m)
                  offset (offset + 4) bytes with
          | inl a => modify (set_rdram a)
          | inr e => raise e
          end
      end
  | PIF_ROM => raise MemoryError_pif_rom
  end.

End WriteWord.

(** ** class Graphics *)

Definition width : Z := 640.
Definition height : Z := 480.

Record Graphics : Type := mkGraphics {
  framebuffer : Z -> Z -> Z;        (* framebuffer[y, x], dtype uint16 *)
  image : Z -> Z -> Z * Z * Z       (* the RGB image of the last render, [y, x] *)
}.

Definition Graphics_init : Graphics :=
  mkGraphics (fun _ _ => 0) (fun _ _ => (0, 0, 0)).

(** [draw_rectangle] as the kernel calls it, on numpy [uint32] scalars:
    [x + width] and [y + height] are sums of two [uint32] and wrap at 32
    bits; the slice store casts the [uint32] color to the framebuffer's
    [uint16]. *)
Definition draw_rectangle (x y width_ height_ color : Z) : M Graphics unit :=
  let x1 := Z.max 0 x in
  let y1 := Z.max 0 y in
  let x2 := Z.min width (uint32 (x + width_)) in
  let y2 := Z.min height (uint32 (y + height_)) in
  if (x1 <? x2) && (y1 <? y2) then
    modify (fun g =>
      mkGraphics
        (fun cy cx =>
           if (y1 <=? cy) && (cy <? y2) && (x1 <=? cx) && (cx <? x2)
           then uint16 color
           else framebuffer g cy cx)
        (image g))
  else ret tt.

Definition render : M Graphics unit :=
  modify (fun g =>
    let r := fun cy cx => Z.land (Z.shiftr (framebuffer g cy cx) 10) 0x1F * 8 in
    let gr := fun cy cx => Z.land (Z.shiftr (framebuffer g cy cx) 5) 0x1F * 8 in
    let b := fun cy cx => Z.land (framebuffer g cy cx) 0x1F * 8 in
    mkGraphics (framebuffer g)
      (fun cy cx => (uint8 (r cy cx), uint8 (gr cy cx), uint8 (b cy cx)))).

(** ** class Kernel *)

Record Kernel : Type := mkKernel {
  memory : Memory;
  graphics : Graphics;
  pc : Z;
  registers : Z -> Z;         (* np.zeros(32, dtype=np.uint32), by index *)
  running : bool;
  cycles : Z;
  dialogs : list exn          (* what [messagebox.showerror] was given *)
}.

Definition Kernel_init (m : Memory) (g : Graphics) : Kernel :=
  mkKernel m g 0 (fun _ => 0) true 0 [].

Definition set_memory (m : Memory) (k : Kernel) : Kernel :=
  mkKernel m (graphics k) (pc k) (registers k) (running k) (cycles k) (dialogs k).
Definition set_graphics (g : Graphics) (k : Kernel) : Kernel :=
  mkKernel (memory k) g (pc k) (registers k) (running k) (cycles k) (dialogs k).
Definition set_pc (p : Z) (k : Kernel) : Kernel :=
  mkKernel (memory k) (graphics k) p (registers k) (running k) (cycles k) (dialogs k).
Definition set_running (b : bool) (k : Kernel) : Kernel :=
  mkKernel (memory k) (graphics k) (pc k) (registers k) b (cycles k) (dialogs k).
Definition set_cycles (c : Z) (k : Kernel) : Kernel :=
  mkKernel (memory k) (graphics k) (pc k) (registers k) (running k) c (dialogs k).
Definition show_error (e : exn) (k : Kernel) : Kernel :=
  mkKernel (memory k) (graphics k) (pc k) (registers k) (running k) (cycles k)
    (dialogs k ++ [e]).

(** [self.registers[i] = v]: the value is cast to the array's [uint32]. *)
Definition set_register (i v : Z) (k : Kernel) : Kernel :=
  mkKernel (memory k) (graphics k) (pc k)
    (fun j => if j =? i then uint32 v else registers k j)
    (running k) (cycles k) (dialogs k).

Definition on_memory {A} (c : M Memory A) : M Kernel A := zoom memory set_memory c.
Definition on_graphics {A} (c : M Graphics A) : M Kernel A := zoom graphics set_graphics c.

Fixpoint load_bytes (i : Z) (program : list Z) : M Kernel unit :=
  match program with
  | [] => ret tt
  | byte :: rest => on_memory (write_byte i byte) ;;; load_bytes (i + 1) rest
  end.

Definition load_program (program : list Z) : M Kernel unit :=
  load_bytes 0 program ;;; modify (set_pc 0).

Definition fetch_instruction : M Kernel Z :=
  k <- get ;;
  instruction <- on_memory (read_word (pc k)) ;;
  modify (fun k => set_pc (pc k + 4) k) ;;;
  modify (fun k => set_cycles (cycles k + 1) k) ;;;
  ret instruction.

(** The closures [decode_instruction] returns, with the variables each
    one captures. *)
Inductive func : Type :=
| func_add (rd rs rt : Z)
| func_sub (rd rs rt : Z)
| func_addi (rt rs imm : Z)
| func_lui (rt imm : Z)
| func_draw_rectangle
| func_render
| func_halt
| func_unknown (opcode : Z).

(** The two lines of the ADDI branch that sign-extend the immediate:
    [if imm & 0x8000: imm -= 0x10000]. *)
Definition sign_extend16 (imm : Z) : Z :=
  if Z.land imm 0x8000 =? 0 then imm else imm - 0x10000.

(** [None] is Python's [None]: the value of a call that falls off the
    end of the function without a [return]. *)
Definition decode_instruction (instruction : Z) : option func :=
  let opcode := Z.shiftr instruction 26 in
  if opcode =? 0 then
    let rs := Z.land (Z.shiftr instruction 21) 0x1F in
    let rt := Z.land (Z.shiftr instruction 16) 0x1F in
    let rd := Z.land (Z.shiftr instruction 11) 0x1F in
    let funct := Z.land instruction 0x3F in
    if funct =? 0x20 then Some (func_add rd rs rt)
    else if funct =? 0x22 then Some (func_sub rd rs rt)
    else None
  else if opcode =? 0x08 then
    let rs := Z.land (Z.shiftr instruction 21) 0x1F in
    let rt := Z.land (Z.shiftr instruction 16) 0x1F in
    let imm := Z.land instruction 0xFFFF in
    let imm := sign_extend16 imm in
    Some (func_addi rt rs imm)
  else if opcode =? 0x0F then
    let rt := Z.land (Z.shiftr instruction 16) 0x1F in
    let imm := Z.land instruction 0xFFFF in
    Some (func_lui rt imm)
  else if opcode =? 0x2D then Some func_draw_rectangle
  else if opcode =? 0x2E then Some func_render
  else if opcode =? 0x3F then Some func_halt
  else Some (func_unknown opcode).

Section Closures.

Context {numpy : numpy_release}.

(** Calling a closure. The sum and the difference of two [uint32]
    registers wrap at 32 bits before the mask. A register plus the Python
    integer [imm] depends on the release of numpy: exact before the mask
    up to NumPy 1.x; from NumPy 2 a sum of two [uint32], after [imm] was
    converted, which raises [OverflowError] for a negative [imm]. *)
Definition call (f : func) : M Kernel unit :=
  match f with
  | func_add rd rs rt =>
      modify (fun k =>
        set_register rd (Z.land (uint32 (registers k rs + registers k rt)) 0xFFFFFFFF) k)
  | func_sub rd rs rt =>
      modify (fun k =>
        set_register rd (Z.land (uint32 (registers k rs - registers k rt)) 0xFFFFFFFF) k)
  | func_addi rt rs imm =>
      match numpy with
      | NumPy_1 =>
          modify (fun k => set_register rt (Z.land (registers k rs + imm) 0xFFFFFFFF) k)
      | NumPy_2 =>
          if (0 <=? imm) && (imm <? 2 ^ 32) then
            modify (fun k =>
              set_register rt (Z.land (uint32 (registers k rs + imm)) 0xFFFFFFFF) k)
          else raise OverflowError
      end
  | func_lui rt imm =>
      modify (fun k => set_register rt (Z.shiftl imm 16) k)
  | func_draw_rectangle =>
      k <- get ;;
      on_graphics (draw_rectangle (registers k 1) (registers k 2) (registers k 3)
                     (registers k 4) (registers k 5))
  | func_render => on_graphics render
  | func_halt => modify (set_running false)
  | func_unknown opcode => raise (ValueError_unknown_opcode opcode)
  end.

(** [self.decode_instruction(instruction)()] *)
Definition call_decoded (instruction : Z) : M Kernel unit :=
  match decode_instruction instruction with
  | Some f => call f
  | None => raise TypeError_not_callable
  end.

(** One turn of the loop of [run]. *)
Definition cycle : M Kernel unit :=
  instruction <- fetch_instruction ;;
  call_decoded instruction.

(** [while self.running: ...], for at most [fuel] turns; [None] when the
    fuel does not suffice. *)
Fixpoint run_loop (fuel : nat) (k : Kernel) : option (outcome Kernel unit) :=
  if running k then
    match fuel with
    | O => None
    | S fuel' =>
        match cycle k with
        | Ok _ k' => run_loop fuel' k'
        | Raise e k' => Some (Raise e k')
        end
    end
  else Some (Ok tt k).

(** [run]: the loop inside [try], and the [except Exception] handler. *)
Definition run (fuel : nat) (k : Kernel) : option (outcome Kernel unit) :=
  match run_loop fuel k with
  | None => None
  | Some (Ok _ k') => Some (Ok tt k')
  | Some (Raise e k') => Some (Ok tt (set_running false (show_error e k')))
  end.

(** The kernel after at most [n] turns of the loop, whether it is still
    running, halted, or stopped where an exception was raised. *)
Fixpoint after (n : nat) (k : Kernel) : Kernel :=
  match n with
  | O => k
  | S n' => if running k then
              match cycle k with
              | Ok _ k' => after n' k'
              | Raise _ k' => k'
              end
            else k
  end.

End Closures.

(** ** class GameWindow: the demonstration program

    The list [GameWindow.__init__] hands to [load_program]: nine
    instruction words, not their bytes. *)
Definition demo_program : list Z :=
  [ Z.lor (Z.lor (Z.shiftl 0x0F 26) (Z.shiftl 1 16)) 0x0001;
    Z.lor (Z.lor (Z.lor (Z.shiftl 0x08 26) (Z.shiftl 1 21)) (Z.shiftl 1 16)) 0x0000;
    Z.lor (Z.lor (Z.lor (Z.shiftl 0x08 26) (Z.shiftl 2 21)) (Z.shiftl 2 16)) 100;
    Z.lor (Z.lor (Z.lor (Z.shiftl 0x08 26) (Z.shiftl 3 21)) (Z.shiftl 3 16)) 200;
    Z.lor (Z.lor (Z.lor (Z.shiftl 0x08 26) (Z.shiftl 4 21)) (Z.shiftl 4 16)) 150;
    Z.lor (Z.lor (Z.lor (Z.shiftl 0x08 26) (Z.shiftl 5 21)) (Z.shiftl 5 16)) 0x1F;
    Z.shiftl 0x2D 26;
    Z.shiftl 0x2E 26;
    Z.shiftl 0x3F 26 ].

End EMAUI.

(** ** Python's bytearray

    A bytearray is the list of its bytes. A slice takes its bounds as
    Python does (a negative bound counts from the end, both are clamped to
    the length), and a slice store replaces the slice by the given bytes,
    whatever their number. *)

Module Bytearray.

Definition clamp (len i : Z) : Z :=
  if i <? 0 then Z.max (i + len) 0 else Z.min i len.

(** [b[lo:hi]] *)
Definition slice (b : list Z) (lo hi : Z) : list Z :=
  let len := Z.of_nat (length b) in
  let lo' := clamp len lo in
  let hi' := clamp len hi in
  firstn (Z.to_nat (hi' - lo')) (skipn (Z.to_nat lo') b).

(** [b[lo:hi] = values] *)
Definition store_slice (b : list Z) (lo hi : Z) (values : list Z) : list Z :=
  let len := Z.of_nat (length b) in
  let lo' := clamp len lo in
  let hi' := Z.max lo' (clamp len hi) in
  firstn (Z.to_nat lo') b ++ values ++ skipn (Z.to_nat hi') b.

(** [b[i] = v] for [0 <= i < len(b)] *)
Fixpoint store (b : list Z) (i : nat) (v : Z) : list Z :=
  match b, i with
  | [], _ => []
  | _ :: rest, O => v :: rest
  | x :: rest, S i' => x :: store rest i' v
  end.

End Bytearray.

(** * FlamesVM64.py *)

Module FlamesVM64.

(** ** class Memory *)

Record Memory : Type := mkMemory {
  size : Z;
  memory : list Z          (* bytearray(size) *)
}.

Definition Memory_init (size : Z) : Memory :=
  mkMemory size (repeat 0 (Z.to_nat size)).

Definition set_bytes (b : list Z) (m : Memory) : Memory := mkMemory (size m) b.

(** The bytearray has the length it was created with. *)
Definition well_sized (m : Memory) : Prop :=
  Z.of_nat (length (memory m)) = size m.

Definition read_byte (address : Z) : M Memory Z :=
  m <- get ;;
  if (0 <=? address) && (address <? size m) then
    match nth_error (memory m) (Z.to_nat address) with
    | Some b => ret b
    | None => raise IndexError
    end
  else raise (MemoryError_invalid address).

Definition write_byte (address value : Z) : M Memory unit :=
  m <- get ;;
  if (0 <=? address) && (address <? size m) then
    if (Z.to_nat address <? length (memory m))%nat then
      modify (set_bytes (Bytearray.store (memory m) (Z.to_nat address) (Z.land value 0xFF)))
    else raise IndexError
  else raise (MemoryError_invalid address).

Definition read_word (address : Z) : M Memory Z :=
  m <- get ;;
  if (0 <=? address + 3) && (address + 3 <? size m) then
    match Struct.unpack_I (Bytearray.slice (memory m) address (address + 4)) with
    | Some word => ret word
    | None => raise StructError
    end
  else raise (MemoryError_invalid address).

Definition write_word (address value : Z) : M Memory unit :=
  m <- get ;;
  if (0 <=? address + 3) && (address + 3 <? size m) then
    match Struct.pack_I value with
    | Some bytes =>
        modify (set_bytes (Bytearray.store_slice (memory m) address (address + 4) bytes))
    | None => raise StructError
    end
  else raise (MemoryError_invalid address).

(** ** class Graphics *)

Definition width : Z := 640.
Definition height : Z := 480.

Record Graphics : Type := mkGraphics {
  framebuffer : Z -> Z;             (* [0] * (width * height), by index *)
  photo : Z -> Z -> Z * Z * Z       (* the image of the last render, [x, y] *)
}.

Definition Graphics_init : Graphics :=
  mkGraphics (fun _ => 0) (fun _ _ => (0, 0, 0)).

Definition draw_pixel (x y color : Z) : M Graphics unit :=
  if (0 <=? x) && (x <? width) && (0 <=? y) && (y <? height) then
    let index := y * width + x in
    modify (fun g =>
      mkGraphics (fun i => if i =? index then color else framebuffer g i) (photo g))
  else ret tt.

Definition render : M Graphics unit :=
  modify (fun g =>
    mkGraphics (framebuffer g)
      (fun x y =>
         let color := framebuffer g (y * width + x) in
         let r := Z.land (Z.shiftr color 5) 0x07 in
         let gr := Z.land (Z.shiftr color 2) 0x07 in
         let b := Z.land color 0x03 in
         (r * 32, gr * 32, b * 64))).

(** ** class Kernel *)

Record Kernel : Type := mkKernel {
  mem : Memory;               (* self.memory *)
  graphics : Graphics;
  pc : Z;
  registers : Z -> Z;         (* [0] * 32, Python integers, by index *)
  running : bool
}.

Definition Kernel_init (m : Memory) (g : Graphics) : Kernel :=
  mkKernel m g 0 (fun _ => 0) true.

Definition set_mem (m : Memory) (k : Kernel) : Kernel :=
  mkKernel m (graphics k) (pc k) (registers k) (running k).
Definition set_graphics (g : Graphics) (k : Kernel) : Kernel :=
  mkKernel (mem k) g (pc k) (registers k) (running k).
Definition set_pc (p : Z) (k : Kernel) : Kernel :=
  mkKernel (mem k) (graphics k) p (registers k) (running k).
Definition set_running (b : bool) (k : Kernel) : Kernel :=
  mkKernel (mem k) (graphics k) (pc k) (registers k) b.
Definition set_register (i v : Z) (k : Kernel) : Kernel :=
  mkKernel (mem k) (graphics k) (pc k)
    (fun j => if j =? i then v else registers k j) (running k).

Definition on_memory {A} (c : M Memory A) : M Kernel A := zoom mem set_mem c.
Definition on_graphics {A} (c : M Graphics A) : M Kernel A := zoom graphics set_graphics c.

Fixpoint load_bytes (i : Z) (program : list Z) : M Kernel unit :=
  match program with
  | [] => ret tt
  | byte :: rest => on_memory (write_byte i byte) ;;; load_bytes (i + 1) rest
  end.

Definition load_program (program : list Z) : M Kernel unit :=
  load_bytes 0 program ;;; modify (set_pc 0).

Definition fetch_instruction : M Kernel Z :=
  k <- get ;;
  instruction <- on_memory (read_word (pc k)) ;;
  modify (fun k => set_pc (pc k + 4) k) ;;;
  ret instruction.

Definition execute_instruction (instruction : Z) : M Kernel unit :=
  let opcode := Z.shiftr instruction 26 in
  if opcode =? 0 then
    let rs := Z.land (Z.shiftr instruction 21) 0x1F in
    let rt := Z.land (Z.shiftr instruction 16) 0x1F in
    let rd := Z.land (Z.shiftr instruction 11) 0x1F in
    modify (fun k => set_register rd (registers k rs + registers k rt) k)
  else if opcode =? 1 then
    let rs := Z.land (Z.shiftr instruction 21) 0x1F in
    let imm := Z.land instruction 0xFFFF in
    modify (fun k => set_register rs (registers k rs + imm) k)
  else if opcode =? 2 then
    let target := Z.land instruction 0x3FFFFFF in
    modify (fun k => set_pc (Z.lor (Z.land (pc k) 0xF0000000) (Z.shiftl target 2)) k)
  else if opcode =? 3 then
    k <- get ;;
    on_graphics (draw_pixel (registers k 1) (registers k 2) (registers k 3))
  else if opcode =? 4 then on_graphics render
  else if opcode =? 63 then modify (set_running false)
  else raise (ValueError_unknown_opcode opcode).

(** One turn of the loop of [run]. *)
Definition cycle : M Kernel unit :=
  instruction <- fetch_instruction ;;
  execute_instruction instruction.

(** [run]: [while self.running: ...] with no handler around it, for at
    most [fuel] turns; [None] when the fuel does not suffice. An
    exception leaves [run] as it was raised. *)
Fixpoint run (fuel : nat) (k : Kernel) : option (outcome Kernel unit) :=
  if running k then
    match fuel with
    | O => None
    | S fuel' =>
        match cycle k with
        | Ok _ k' => run fuel' k'
        | Raise e k' => Some (Raise e k')
        end
    end
  else Some (Ok tt k).

(** The kernel after at most [n] turns of the loop. *)
Fixpoint after (n : nat) (k : Kernel) : Kernel :=
  match n with
  | O => k
  | S n' => if running k then
              match cycle k with
              | Ok _ k' => after n' k'
              | Raise _ k' => k'
              end
            else k
  end.

(** ** class GameWindow: the demonstration program

    The list [GameWindow.__init__] hands to [load_program]: nine
    instruction words, not their bytes. In Python [<<] binds tighter than
    [|], so each line is the bitwise or of its shifted fields. *)
Definition demo_program : list Z :=
  [ Z.lor (Z.lor (Z.shiftl 0x01 26) (Z.shiftl 1 21)) (Z.shiftl 10 16);
    Z.lor (Z.lor (Z.shiftl 0x01 26) (Z.shiftl 2 21)) (Z.shiftl 5 16);
    Z.shiftl 0x03 26;
    Z.lor (Z.lor (Z.shiftl 0x01 26) (Z.shiftl 2 21)) (Z.shiftl 1 16);
    Z.lor (Z.lor (Z.shiftl 0x01 26) (Z.shiftl 3 21)) (Z.shiftl 4 16);
    Z.lor (Z.lor (Z.lor (Z.shiftl 0x00 26) (Z.shiftl 1 21)) (Z.shiftl 2 16)) (Z.shiftl 3 11);
    Z.shiftl 0x03 26;
    Z.shiftl 0x04 26;
    Z.shiftl 0x3F 26 ].

(** ** class CheatManager

    [self.cheats] is the list of the cheats in the order they were added;
    a cheat is the dictionary [add_cheat] builds, with its three keys. *)

Record Cheat : Type := mkCheat {
  code : String.string;
  description : String.string;
  enabled : bool
}.

Definition add_cheat (code description : String.string) (cheats : list Cheat)
  : list Cheat :=
  cheats ++ [mkCheat code description false].

(** [cheats[index]['enabled'] = not cheats[index]['enabled']] *)
Fixpoint flip_enabled (index : nat) (cheats : list Cheat) : list Cheat :=
  match cheats, index with
  | [], _ => []
  | c :: rest, O => mkCheat (code c) (description c) (negb (enabled c)) :: rest
  | c :: rest, S index' => c :: flip_enabled index' rest
  end.

Definition toggle_cheat (index : Z) (cheats : list Cheat) : list Cheat :=
  if (0 <=? index) && (index <? Z.of_nat (length cheats))
  then flip_enabled (Z.to_nat index) cheats
  else cheats.

End FlamesVM64.

(** * States and programs used in the examples *)

Module Examples.

(** A [store_literal] that stores nothing and succeeds, for the statements
    that have to name one. *)
Definition keep_literal : Z -> Numpy.ndarray -> Z -> Z -> list Z -> Numpy.ndarray + exn :=
  fun _ a _ _ _ => inl a.

(** EMAUI0.2: a kernel as [GameWindow] builds it, and one whose registers
    1 to 5 hold the given values. *)
Definition emaui_fresh : EMAUI.Kernel :=
  EMAUI.Kernel_init EMAUI.Memory_init EMAUI.Graphics_init.

Definition emaui_registers (r1 r2 r3 r4 r5 : Z) : EMAUI.Kernel :=
  EMAUI.set_register 5 r5 (EMAUI.set_register 4 r4 (EMAUI.set_register 3 r3
    (EMAUI.set_register 2 r2 (EMAUI.set_register 1 r1 emaui_fresh)))).

(** FlamesVM64: a kernel over a memory of [size] bytes, and one whose
    registers 1 to 3 hold the given values. *)
Definition flames_fresh (size : Z) : FlamesVM64.Kernel :=
  FlamesVM64.Kernel_init (FlamesVM64.Memory_init size) FlamesVM64.Graphics_init.

Definition flames_registers (size r1 r2 r3 : Z) : FlamesVM64.Kernel :=
  FlamesVM64.set_register 3 r3 (FlamesVM64.set_register 2 r2
    (FlamesVM64.set_register 1 r1 (flames_fresh size))).

End Examples.

(** * Properties *)

(** Unfolds the monad's combinators in the goal and in the hypotheses. *)
Ltac unmonad :=
  unfold bind, ret, raise, get, modify, zoom in *; cbn beta iota in *.

(** Settles the integer comparisons of the goal that [lia] can decide. *)
Ltac settle_cmp :=
  repeat match goal with
    | |- context [?a <? ?b] =>
        first [ replace (a <? b) with true by (symmetry; apply Z.ltb_lt; lia)
              | replace (a <? b) with false by (symmetry; apply Z.ltb_ge; lia) ]
    | |- context [?a <=? ?b] =>
        first [ replace (a <=? b) with true by (symmetry; apply Z.leb_le; lia)
              | replace (a <=? b) with false by (symmetry; apply Z.leb_gt; lia) ]
    | |- context [?a =? ?b] =>
        first [ replace (a =? b) with true by (symmetry; apply Z.eqb_eq; lia)
              | replace (a =? b) with false by (symmetry; apply Z.eqb_neq; lia) ]
    end.

(** ** Bytes and words *)

Section Words.

Lemma land_255_mod (v : Z) : Z.land v 255 = v mod 256.
Proof. change 255 with (Z.ones 8). now rewrite Z.land_ones by lia. Qed.

Lemma land_255_byte (v : Z) : 0 <= Z.land v 255 < 256.
Proof. rewrite land_255_mod. apply Z.mod_pos_bound. lia. Qed.

Lemma testbit_above_32 (v n : Z) : 0 <= v < 2 ^ 32 -> 32 <= n -> Z.testbit v n = false.
Proof.
  intros Hv Hn. destruct (Z.eq_dec v 0) as [-> | Hnz]; [apply Z.testbit_0_l |].
  apply Z.bits_above_log2; [lia |].
  assert (Z.log2 v < 32) by (apply Z.log2_lt_pow2; lia). lia.
Qed.

(** The four bytes of a word, most significant first, put together again. *)
Lemma big_endian_bytes (v : Z) :
  0 <= v < 2 ^ 32 ->
  Z.lor (Z.shiftl (Z.land (Z.shiftr v 24) 255) 24)
    (Z.lor (Z.shiftl (Z.land (Z.shiftr v 16) 255) 16)
       (Z.lor (Z.shiftl (Z.land (Z.shiftr v 8) 255) 8) (Z.land v 255))) = v.
Proof.
  intros Hv.
  change 255 with (Z.ones 8).
  apply Z.bits_inj'; intros n Hn.
  rewrite !Z.lor_spec, !Z.shiftl_spec, !Z.land_spec by lia.
  rewrite !Z.testbit_ones by lia.
  destruct (Z.ltb_spec n 8);
    [| destruct (Z.ltb_spec n 16);
       [| destruct (Z.ltb_spec n 24); [| destruct (Z.ltb_spec n 32)]]].
  - rewrite !(Z.testbit_neg_r _ (n - _)) by lia.
    settle_cmp. cbn. now rewrite andb_true_r.
  - rewrite !(Z.testbit_neg_r _ (n - 16)), !(Z.testbit_neg_r _ (n - 24)) by lia.
    rewrite Z.shiftr_spec by lia. replace (n - 8 + 8) with n by lia.
    settle_cmp. cbn. now rewrite !andb_true_r, !andb_false_r, orb_false_r.
  - rewrite !(Z.testbit_neg_r _ (n - 24)) by lia.
    rewrite !Z.shiftr_spec by lia. replace (n - 16 + 16) with n by lia.
    settle_cmp. cbn. now rewrite !andb_true_r, !andb_false_r, !orb_false_r.
  - rewrite !Z.shiftr_spec by lia. replace (n - 24 + 24) with n by lia.
    settle_cmp. cbn. now rewrite !andb_true_r, !andb_false_r, !orb_false_r.
  - settle_cmp. rewrite !andb_false_r. cbn.
    symmetry. now apply testbit_above_32.
Qed.

Lemma pack_I_in_range (v : Z) :
  0 <= v < 2 ^ 32 ->
  Struct.pack_I v = Some [Z.land (Z.shiftr v 24) 255; Z.land (Z.shiftr v 16) 255;
                          Z.land (Z.shiftr v 8) 255; Z.land v 255].
Proof. intros Hv. unfold Struct.pack_I. now settle_cmp. Qed.

(** What [pack_I] returns when it returns. *)
Lemma pack_I_Some (v : Z) (bytes : list Z) :
  Struct.pack_I v = Some bytes ->
  0 <= v < 2 ^ 32 /\
  bytes = [Z.land (Z.shiftr v 24) 255; Z.land (Z.shiftr v 16) 255;
           Z.land (Z.shiftr v 8) 255; Z.land v 255].
Proof.
  unfold Struct.pack_I.
  destruct (Z.leb_spec 0 v) as [H0 | H0]; cbn [andb]; [| intros H; discriminate H].
  destruct (Z.ltb_spec v (2 ^ 32)) as [H1 | H1]; [| intros H; discriminate H].
  intros H. split; [lia | congruence].
Qed.

Lemma unpack_pack (v : Z) (bytes : list Z) :
  Struct.pack_I v = Some bytes -> Struct.unpack_I bytes = Some v.
Proof.
  intros H. apply pack_I_Some in H as [Hv ->].
  cbn [Struct.unpack_I]. f_equal. now apply big_endian_bytes.
Qed.

Lemma pack_I_length (v : Z) (bytes : list Z) :
  Struct.pack_I v = Some bytes -> length bytes = 4%nat.
Proof. intros H. apply pack_I_Some in H as [_ ->]. reflexivity. Qed.

Lemma unpack_I_length (buffer : list Z) (w : Z) :
  Struct.unpack_I buffer = Some w -> length buffer = 4%nat.
Proof.
  destruct buffer as [| b0 [| b1 [| b2 [| b3 [| b4 rest]]]]]; cbn; congruence.
Qed.

Lemma range_length (lo : Z) (n : nat) : length (range lo n) = n.
Proof. unfold range. now rewrite length_map, length_seq. Qed.

End Words.

(** ** EMAUI0.2: the memory map *)

Module EMAUI_Memory.
Import EMAUI.

(** Where an address resolves does not depend on the memory's contents. *)
Lemma map_address_any (address : Z) (m m' : Memory) (ro : region * Z) :
  map_address address m = Ok ro m -> map_address address m' = Ok ro m'.
Proof.
  unfold map_address; unmonad.
  destruct (_ && _); [congruence |]. destruct (_ && _); [congruence | discriminate].
Qed.

Lemma map_address_inv (address : Z) (m : Memory) (r : region) (offset : Z) :
  map_address address m = Ok (r, offset) m ->
  0 <= offset < region_size r /\
  match r with
  | RDRAM => address = RDRAM_START + offset
  | PIF_ROM => address = PIF_ROM_START + offset
  end.
Proof.
  unfold map_address; unmonad.
  destruct ((RDRAM_START <=? address) && _) eqn:H1.
  - intros [= <- <-]. apply andb_true_iff in H1 as [Ha Hb].
    apply Z.leb_le in Ha, Hb. cbn [region_size].
    unfold RDRAM_END, RDRAM_START, RDRAM_SIZE in *. lia.
  - destruct ((PIF_ROM_START <=? address) && _) eqn:H2; [| intros [=]].
    intros [= <- <-]. apply andb_true_iff in H2 as [Ha Hb].
    apply Z.leb_le in Ha, Hb. cbn [region_size].
    unfold PIF_ROM_END, PIF_ROM_START, PIF_ROM_SIZE in *. lia.
Qed.

Lemma map_address_rdram (address : Z) (m : Memory) :
  RDRAM_START <= address <= RDRAM_END ->
  map_address address m = Ok (RDRAM, address - RDRAM_START) m.
Proof.
  intros H. unfold map_address; unmonad.
  replace (_ && _) with true by (symmetry; apply andb_true_iff; lia).
  reflexivity.
Qed.

Lemma map_address_pif_rom (address : Z) (m : Memory) :
  PIF_ROM_START <= address <= PIF_ROM_END ->
  map_address address m = Ok (PIF_ROM, address - PIF_ROM_START) m.
Proof.
  intros H. unfold map_address; unmonad.
  replace (_ && _) with false
    by (symmetry; apply andb_false_iff;
        unfold RDRAM_END, RDRAM_START, RDRAM_SIZE, PIF_ROM_START in *; lia).
  replace (_ && _) with true by (symmetry; apply andb_true_iff; lia).
  reflexivity.
Qed.

Lemma map_address_unmapped (address : Z) (m : Memory) :
  (address < RDRAM_START \/ RDRAM_END < address) ->
  (address < PIF_ROM_START \/ PIF_ROM_END < address) ->
  map_address address m = Raise (MemoryError_invalid address) m.
Proof.
  intros H1 H2. unfold map_address; unmonad.
  replace (_ && _) with false by (symmetry; apply andb_false_iff; lia).
  replace (_ && _) with false by (symmetry; apply andb_false_iff; lia).
  reflexivity.
Qed.

(** What the two byte accessors do at an address that resolves. *)
Lemma read_byte_mapped (address : Z) (m : Memory) (r : region) (offset : Z) :
  map_address address m = Ok (r, offset) m ->
  read_byte address m = Ok (region_array r m offset) (add_reads 1 m).
Proof.
  intros H. unfold read_byte; unmonad. rewrite H. now destruct r.
Qed.

Lemma write_byte_rdram (address value : Z) (m : Memory) (offset : Z) :
  map_address address m = Ok (RDRAM, offset) m ->
  write_byte address value m =
    Ok tt (set_rdram (Numpy.store (rdram m) offset (Z.land value 0xFF)) (add_writes 1 m)).
Proof.
  intros H. unfold write_byte; unmonad. now rewrite H.
Qed.

Lemma write_byte_pif_rom (address value : Z) (m : Memory) (offset : Z) :
  map_address address m = Ok (PIF_ROM, offset) m ->
  write_byte address value m = Raise MemoryError_pif_rom (add_writes 1 m).
Proof.
  intros H. unfold write_byte; unmonad. now rewrite H.
Qed.

(** A slice of four cells that ends inside the array. *)
Lemma slice_four (size : Z) (a : Numpy.ndarray) (offset : Z) :
  offset + 4 <= size ->
  Numpy.slice size a offset (offset + 4) =
    [a offset; a (offset + 1); a (offset + 2); a (offset + 3)].
Proof.
  intros H. unfold Numpy.slice.
  replace (Z.min (offset + 4) size - offset) with 4 by lia.
  change (Z.to_nat 4) with 4%nat. cbn. repeat f_equal; lia.
Qed.

(** A slice that would pass the end of the array has fewer than four cells. *)
Lemma slice_short (size : Z) (a : Numpy.ndarray) (offset : Z) :
  size < offset + 4 ->
  (length (Numpy.slice size a offset (offset + 4)) < 4)%nat.
Proof.
  intros H. unfold Numpy.slice. rewrite length_map, range_length. lia.
Qed.

Lemma unpack_slice_short (size : Z) (a : Numpy.ndarray) (offset : Z) (m : Memory) :
  size < offset + 4 ->
  unpack_slice size a offset m = Raise StructError m.
Proof.
  intros H. unfold unpack_slice.
  destruct (Struct.unpack_I _) as [w |] eqn:E; [| reflexivity].
  apply unpack_I_length in E. pose proof (slice_short size a offset H). lia.
Qed.

End EMAUI_Memory.

(** ** EMAUI0.2: word access *)

Module EMAUI_Words.
Import EMAUI EMAUI_Memory.

(** A word read whose last byte would lie past the end of the region
    stops in [struct.unpack], after the counter was advanced. *)
Lemma read_word_short (address : Z) (m : Memory) (r : region) (offset : Z) :
  map_address address m = Ok (r, offset) m ->
  region_size r < offset + 4 ->
  read_word address m = Raise StructError (add_reads 4 m).
Proof.
  intros Hmap Hend. unfold read_word; unmonad. rewrite Hmap.
  destruct r; cbn [region_size] in Hend; now apply unpack_slice_short.
Qed.

Section WriteWord.

Variable store_literal : Z -> Numpy.ndarray -> Z -> Z -> list Z -> Numpy.ndarray + exn.

(** A word write to the PIF ROM is refused, at every offset. *)
Lemma write_word_pif_rom (address value : Z) (m : Memory) (offset : Z) :
  map_address address m = Ok (PIF_ROM, offset) m ->
  write_word store_literal address value m = Raise MemoryError_pif_rom (add_writes 4 m).
Proof. intros H. unfold write_word; unmonad. now rewrite H. Qed.

(** A word write to RDRAM of a value that is no unsigned 32-bit integer
    stops in [struct.pack]. *)
Lemma write_word_out_of_range (address value : Z) (m : Memory) (offset : Z) :
  map_address address m = Ok (RDRAM, offset) m ->
  (value < 0 \/ 2 ^ 32 <= value) ->
  write_word store_literal address value m = Raise StructError (add_writes 4 m).
Proof.
  intros H Hv. unfold write_word; unmonad. rewrite H.
  destruct (Struct.pack_I value) as [bytes |] eqn:Hp; [| reflexivity].
  apply pack_I_Some in Hp. lia.
Qed.

(** A word write to RDRAM of a value whose most significant byte can not
    begin a decimal literal stops in numpy's store, at every offset. *)
Lemma write_word_not_literal (address value : Z) (m : Memory) (offset : Z) :
  map_address address m = Ok (RDRAM, offset) m ->
  0 <= value < 2 ^ 32 ->
  Numpy.literal_start (Z.land (Z.shiftr value 24) 255) = false ->
  write_word store_literal address value m = Raise ValueError_literal (add_writes 4 m).
Proof.
  intros H Hv Hl. unfold write_word; unmonad. rewrite H.
  rewrite (pack_I_in_range value Hv). cbn [Numpy.store_slice_bytes]. now rewrite Hl.
Qed.

(** A word write to RDRAM of a value whose four bytes are digits that
    spell a number up to 255 stores that number in every cell of the
    slice, and the slice ends where the array ends. *)
Lemma write_word_digits (address value : Z) (m : Memory) (offset : Z) (bytes : list Z) :
  map_address address m = Ok (RDRAM, offset) m ->
  Struct.pack_I value = Some bytes ->
  forallb Numpy.digit bytes = true -> Numpy.decimal bytes <= 255 ->
  write_word store_literal address value m =
    Ok tt (set_rdram (Numpy.fill RDRAM_SIZE (rdram m) offset (offset + 4)
                        (Numpy.decimal bytes)) (add_writes 4 m)).
Proof.
  intros H Hp Hd Hn. unfold write_word; unmonad. rewrite H, Hp.
  destruct bytes as [| b0 rest]; [apply pack_I_length in Hp; discriminate Hp |].
  cbn [Numpy.store_slice_bytes].
  assert (Hl : Numpy.literal_start b0 = true).
  { cbn [forallb] in Hd. apply andb_prop in Hd as [Hd _].
    unfold Numpy.literal_start. fold (Numpy.digit b0). rewrite Hd.
    apply orb_true_r. }
  rewrite Hl, Hd.
  replace (Numpy.decimal (b0 :: rest) <=? 255) with true
    by (symmetry; now apply Z.leb_le).
  reflexivity.
Qed.

End WriteWord.

(** A word read inside a region puts four cells together, the lowest
    address first. *)
Lemma read_word_inside (address : Z) (m : Memory) (r : region) (offset : Z) :
  map_address address m = Ok (r, offset) m ->
  offset + 4 <= region_size r ->
  read_word address m =
    Ok (Z.lor (Z.shiftl (region_array r m offset) 24)
          (Z.lor (Z.shiftl (region_array r m (offset + 1)) 16)
             (Z.lor (Z.shiftl (region_array r m (offset + 2)) 8)
                (region_array r m (offset + 3)))))
       (add_reads 4 m).
Proof.
  intros Hmap Hend. unfold read_word; unmonad. rewrite Hmap.
  destruct r; cbn [region_size region_array] in *; unfold unpack_slice;
    cbn [rdram pif_rom add_reads]; now rewrite slice_four by assumption.
Qed.

End EMAUI_Words.

(** ** FlamesVM64: the flat memory *)

Module Flames_Memory.
Import FlamesVM64.

Lemma clamp_inside (len i : Z) : 0 <= i <= len -> Bytearray.clamp len i = i.
Proof.
  intros H. unfold Bytearray.clamp.
  destruct (Z.ltb_spec i 0); lia.
Qed.

Lemma store_length (b : list Z) (i : nat) (v : Z) :
  length (Bytearray.store b i v) = length b.
Proof.
  revert i; induction b as [| x rest IH]; intros [| i]; cbn; auto.
Qed.

Lemma store_same (b : list Z) (i : nat) (v : Z) :
  (i < length b)%nat -> nth_error (Bytearray.store b i v) i = Some v.
Proof.
  revert i; induction b as [| x rest IH]; intros [| i] H; cbn in *; try lia; auto.
  apply IH. lia.
Qed.

Lemma store_other (b : list Z) (i j : nat) (v : Z) :
  i <> j -> nth_error (Bytearray.store b i v) j = nth_error b j.
Proof.
  revert i j; induction b as [| x rest IH]; intros [| i] [| j] H; cbn; auto.
  - congruence.
Qed.

(** A slice store of four bytes over four bytes, read back. *)
Lemma slice_store_slice (b : list Z) (a : Z) (bytes : list Z) :
  0 <= a -> a + 4 <= Z.of_nat (length b) -> length bytes = 4%nat ->
  Bytearray.slice (Bytearray.store_slice b a (a + 4) bytes) a (a + 4) = bytes /\
  length (Bytearray.store_slice b a (a + 4) bytes) = length b.
Proof.
  intros Ha Hend Hl.
  assert (Hlen : length (Bytearray.store_slice b a (a + 4) bytes) = length b).
  { unfold Bytearray.store_slice.
    rewrite !clamp_inside by lia.
    rewrite !length_app, length_firstn, length_skipn. lia. }
  split; [| exact Hlen].
  unfold Bytearray.slice. rewrite Hlen, !clamp_inside by lia.
  unfold Bytearray.store_slice. rewrite !clamp_inside by lia.
  replace (a + 4 - a) with 4 by lia.
  rewrite skipn_app.
  rewrite skipn_all2 by (rewrite length_firstn; lia).
  rewrite length_firstn.
  replace (Z.to_nat a - Nat.min (Z.to_nat a) (length b))%nat with 0%nat by lia.
  cbn [skipn app].
  rewrite firstn_app, firstn_all2 by lia.
  replace (Z.to_nat 4 - length bytes)%nat with 0%nat by lia.
  cbn [firstn]. apply app_nil_r.
Qed.

Lemma nth_error_store_slice (b : list Z) (a : Z) (bytes : list Z) (i : nat) :
  0 <= a -> a + 4 <= Z.of_nat (length b) -> (i < length bytes)%nat ->
  nth_error (Bytearray.store_slice b a (a + 4) bytes) (Z.to_nat a + i) =
    nth_error bytes i.
Proof.
  intros Ha Hend Hi. unfold Bytearray.store_slice. rewrite !clamp_inside by lia.
  rewrite nth_error_app2 by (rewrite length_firstn; lia).
  rewrite length_firstn.
  replace (Z.to_nat a + i - Nat.min (Z.to_nat a) (length b))%nat with i by lia.
  now rewrite nth_error_app1 by lia.
Qed.

Lemma read_byte_inside (address : Z) (m : Memory) :
  well_sized m -> 0 <= address < size m ->
  exists b, nth_error (memory m) (Z.to_nat address) = Some b /\
            read_byte address m = Ok b m.
Proof.
  intros Hwf Ha. unfold read_byte; unmonad. settle_cmp. cbn [andb].
  destruct (nth_error (memory m) (Z.to_nat address)) as [b |] eqn:E.
  - now exists b.
  - apply nth_error_None in E. unfold well_sized in Hwf. lia.
Qed.

Lemma write_then_read_byte (address value : Z) (m : Memory) :
  well_sized m -> 0 <= address < size m ->
  exists m1, write_byte address value m = Ok tt m1 /\
             read_byte address m1 = Ok (value mod 256) m1 /\
             well_sized m1.
Proof.
  intros Hwf Ha. unfold well_sized in Hwf.
  unfold write_byte; unmonad. settle_cmp. cbn [andb].
  destruct (Nat.ltb_spec (Z.to_nat address) (length (memory m))) as [Hlt | Hge]; [| lia].
  eexists; split; [reflexivity |].
  unfold read_byte; unmonad. cbn [size memory set_bytes]. settle_cmp. cbn [andb].
  rewrite store_same by exact Hlt. rewrite land_255_mod.
  split; [reflexivity |]. unfold well_sized. cbn. now rewrite store_length.
Qed.

(** A word access whose last byte would lie past the end is refused by
    the explicit check, before anything is read or written. *)
Lemma word_access_short (address : Z) (m : Memory) :
  size m <= address + 3 ->
  read_word address m = Raise (MemoryError_invalid address) m /\
  forall value, write_word address value m = Raise (MemoryError_invalid address) m.
Proof.
  intros H. unfold read_word, write_word; unmonad.
  replace (address + 3 <? size m) with false by (symmetry; apply Z.ltb_ge; lia).
  rewrite andb_false_r. auto.
Qed.

Lemma write_then_read_word_flat (address value : Z) (m : Memory) :
  well_sized m -> 0 <= address -> address + 3 < size m ->
  0 <= value < 2 ^ 32 ->
  exists m1, write_word address value m = Ok tt m1 /\
             read_word address m1 = Ok value m1 /\
             read_byte address m1 = Ok (Z.shiftr value 24) m1 /\
             well_sized m1.
Proof.
  intros Hwf Ha Hend Hv. unfold well_sized in Hwf.
  unfold write_word; unmonad. settle_cmp. cbn [andb].
  destruct (Struct.pack_I value) as [bytes |] eqn:Hp;
    [| rewrite pack_I_in_range in Hp by exact Hv; discriminate].
  pose proof (pack_I_length value bytes Hp) as Hl.
  destruct (slice_store_slice (memory m) address bytes Ha ltac:(lia) Hl) as [Hs Hlen].
  eexists; split; [reflexivity |].
  assert (Hwf1 : well_sized
            (set_bytes (Bytearray.store_slice (memory m) address (address + 4) bytes) m)).
  { unfold well_sized. cbn. now rewrite Hlen. }
  repeat split; [| | exact Hwf1].
  - unfold read_word; unmonad. cbn [size memory set_bytes]. settle_cmp. cbn [andb].
    rewrite Hs. now rewrite (unpack_pack value bytes Hp).
  - unfold read_byte; unmonad. cbn [size memory set_bytes]. settle_cmp. cbn [andb].
    pose proof (nth_error_store_slice (memory m) address bytes 0 Ha ltac:(lia)
                  ltac:(lia)) as Hn.
    rewrite Nat.add_0_r in Hn. rewrite Hn.
    apply pack_I_Some in Hp as [_ ->]. cbn [nth_error].
    f_equal. rewrite land_255_mod. apply Z.mod_small.
    rewrite Z.shiftr_div_pow2 by lia. split.
    + apply Z.div_pos; lia.
    + apply Z.div_lt_upper_bound; lia.
Qed.

End Flames_Memory.

(** ** EMAUI0.2: decoding and the closures *)

Module EMAUI_Kernel.
Import EMAUI.

Section Releases.

Context {numpy : numpy_release}.

Lemma uint32_mask (v : Z) : uint32 (Z.land v 0xFFFFFFFF) = v mod 2 ^ 32.
Proof.
  unfold uint32. change 0xFFFFFFFF with (Z.ones 32).
  rewrite Z.land_ones by lia. apply Z.mod_mod. lia.
Qed.

Lemma uint32_mask_wrapped (v : Z) :
  uint32 (Z.land (uint32 v) 0xFFFFFFFF) = v mod 2 ^ 32.
Proof. rewrite uint32_mask. unfold uint32. apply Z.mod_mod. lia. Qed.

(** A five-bit field is a valid index into the 32 registers. *)
Lemma field5_range (v : Z) : 0 <= Z.land v 0x1F < 32.
Proof.
  change 0x1F with (Z.ones 5). rewrite Z.land_ones by lia.
  apply Z.mod_pos_bound. lia.
Qed.

(** [decode_instruction] returns [None] exactly on the register-type
    words whose funct is neither 0x20 nor 0x22. *)
Lemma decode_None_iff (instruction : Z) :
  decode_instruction instruction = None <->
  Z.shiftr instruction 26 = 0 /\
  Z.land instruction 0x3F <> 0x20 /\ Z.land instruction 0x3F <> 0x22.
Proof.
  unfold decode_instruction.
  destruct (Z.eqb_spec (Z.shiftr instruction 26) 0) as [H0 | H0].
  - destruct (Z.eqb_spec (Z.land instruction 0x3F) 0x20) as [H1 | H1].
    + split; [intros H; discriminate H | intros (_ & H & _); contradiction].
    + destruct (Z.eqb_spec (Z.land instruction 0x3F) 0x22) as [H2 | H2].
      * split; [intros H; discriminate H | intros (_ & _ & H); contradiction].
      * split; auto.
  - split; [| intros (H & _); contradiction].
    repeat match goal with
           | |- context [if ?a =? ?b then _ else _] => destruct (a =? b)
           end; intros H; discriminate H.
Qed.

Lemma decode_add (instruction : Z) :
  Z.shiftr instruction 26 = 0 -> Z.land instruction 0x3F = 0x20 ->
  decode_instruction instruction =
    Some (func_add (Z.land (Z.shiftr instruction 11) 0x1F)
            (Z.land (Z.shiftr instruction 21) 0x1F)
            (Z.land (Z.shiftr instruction 16) 0x1F)).
Proof. intros H0 H1. unfold decode_instruction. now rewrite H0, H1. Qed.

Lemma decode_sub (instruction : Z) :
  Z.shiftr instruction 26 = 0 -> Z.land instruction 0x3F = 0x22 ->
  decode_instruction instruction =
    Some (func_sub (Z.land (Z.shiftr instruction 11) 0x1F)
            (Z.land (Z.shiftr instruction 21) 0x1F)
            (Z.land (Z.shiftr instruction 16) 0x1F)).
Proof. intros H0 H1. unfold decode_instruction. now rewrite H0, H1. Qed.

Lemma decode_addi (instruction : Z) :
  Z.shiftr instruction 26 = 0x08 ->
  decode_instruction instruction =
    Some (func_addi (Z.land (Z.shiftr instruction 16) 0x1F)
            (Z.land (Z.shiftr instruction 21) 0x1F)
            (sign_extend16 (Z.land instruction 0xFFFF))).
Proof. intros H0. unfold decode_instruction. now rewrite H0. Qed.

Lemma decode_draw_rectangle (instruction : Z) :
  Z.shiftr instruction 26 = 0x2D ->
  decode_instruction instruction = Some func_draw_rectangle.
Proof. intros H0. unfold decode_instruction. now rewrite H0. Qed.

(** The register file after a closure stored [v] at index [i]. *)
Lemma set_register_same (i v : Z) (k : Kernel) :
  registers (set_register i v k) i = uint32 v.
Proof. cbn. now rewrite Z.eqb_refl. Qed.

Lemma set_register_other (i j v : Z) (k : Kernel) :
  j <> i -> registers (set_register i v k) j = registers k j.
Proof. intros H. cbn. destruct (Z.eqb_spec j i); [contradiction | reflexivity]. Qed.

Lemma call_add (rd rs rt : Z) (k : Kernel) :
  exists k', call (func_add rd rs rt) k = Ok tt k' /\
    registers k' rd = (registers k rs + registers k rt) mod 2 ^ 32 /\
    (forall j, j <> rd -> registers k' j = registers k j) /\
    pc k' = pc k /\ running k' = running k /\ memory k' = memory k /\
    graphics k' = graphics k.
Proof.
  eexists; split; [reflexivity |].
  rewrite set_register_same, uint32_mask_wrapped.
  repeat split; auto. intros j Hj. now apply set_register_other.
Qed.

Lemma call_sub (rd rs rt : Z) (k : Kernel) :
  exists k', call (func_sub rd rs rt) k = Ok tt k' /\
    registers k' rd = (registers k rs - registers k rt) mod 2 ^ 32 /\
    (forall j, j <> rd -> registers k' j = registers k j) /\
    pc k' = pc k /\ running k' = running k /\ memory k' = memory k /\
    graphics k' = graphics k.
Proof.
  eexists; split; [reflexivity |].
  rewrite set_register_same, uint32_mask_wrapped.
  repeat split; auto. intros j Hj. now apply set_register_other.
Qed.

(** The closure of ADDI, where the release of numpy does not matter or is
    one that promotes: up to NumPy 1.x, or the immediate is not negative. *)
Lemma call_addi (rt rs imm : Z) (k : Kernel) :
  numpy = NumPy_1 \/ 0 <= imm < 2 ^ 32 ->
  exists k', call (func_addi rt rs imm) k = Ok tt k' /\
    registers k' rt = (registers k rs + imm) mod 2 ^ 32 /\
    (forall j, j <> rt -> registers k' j = registers k j) /\
    pc k' = pc k /\ running k' = running k /\ memory k' = memory k /\
    graphics k' = graphics k.
Proof.
  intros H. cbn [call].
  assert (Hcase : numpy = NumPy_1 \/ (numpy = NumPy_2 /\ 0 <= imm < 2 ^ 32))
    by (destruct numpy; [now left | right; destruct H as [H | H]; [discriminate H | auto]]).
  destruct Hcase as [-> | [-> Himm]].
  - eexists; split; [reflexivity |].
    rewrite set_register_same, uint32_mask.
    repeat split; auto. intros j Hj. now apply set_register_other.
  - replace ((0 <=? imm) && (imm <? 2 ^ 32)) with true
      by (symmetry; apply andb_true_iff; split; [apply Z.leb_le | apply Z.ltb_lt]; lia).
    eexists; split; [reflexivity |].
    rewrite set_register_same, uint32_mask_wrapped.
    repeat split; auto. intros j Hj. now apply set_register_other.
Qed.

(** From NumPy 2 the closure of ADDI raises for a negative immediate, and
    nothing has changed. *)
Lemma call_addi_overflow (rt rs imm : Z) (k : Kernel) :
  numpy = NumPy_2 -> imm < 0 ->
  call (func_addi rt rs imm) k = Raise OverflowError k.
Proof.
  intros -> Himm. cbn [call].
  replace (0 <=? imm) with false by (symmetry; apply Z.leb_gt; lia).
  reflexivity.
Qed.

(** Sign extension of a 16-bit field, by its bit 15. *)
Lemma land_bit15 (imm : Z) :
  Z.land imm 0x8000 = if Z.testbit imm 15 then 0x8000 else 0.
Proof.
  change 0x8000 with (2 ^ 15).
  apply Z.bits_inj'; intros n Hn. rewrite Z.land_spec, Z.pow2_bits_eqb by lia.
  destruct (Z.eqb_spec 15 n) as [<- | Hne].
  - rewrite andb_true_r. destruct (Z.testbit imm 15).
    + now rewrite Z.pow2_bits_true by lia.
    + now rewrite Z.testbit_0_l.
  - rewrite andb_false_r. destruct (Z.testbit imm 15).
    + symmetry. apply Z.pow2_bits_false. lia.
    + now rewrite Z.testbit_0_l.
Qed.

Lemma sign_extend16_spec (imm : Z) :
  sign_extend16 imm = if Z.testbit imm 15 then imm - 0x10000 else imm.
Proof.
  unfold sign_extend16. rewrite land_bit15. now destruct (Z.testbit imm 15).
Qed.

(** A sixteen-bit field. *)
Lemma land_ffff_range (v : Z) : 0 <= Z.land v 0xFFFF < 2 ^ 16.
Proof.
  change 0xFFFF with (Z.ones 16). rewrite Z.land_ones by lia.
  apply Z.mod_pos_bound. lia.
Qed.

Lemma sign_extend16_low (imm : Z) :
  0 <= imm < 0x8000 -> sign_extend16 imm = imm.
Proof.
  intros H. rewrite sign_extend16_spec.
  destruct (Z.eq_dec imm 0) as [-> | Hnz]; [reflexivity |].
  rewrite Z.bits_above_log2; [reflexivity | lia |].
  assert (Z.log2 imm < 15) by (apply Z.log2_lt_pow2; lia). lia.
Qed.

Lemma sign_extend16_high (imm : Z) :
  0x8000 <= imm < 0x10000 -> sign_extend16 imm = imm - 0x10000.
Proof.
  intros H. rewrite sign_extend16_spec.
  assert (Hbit : Z.testbit imm 15 = true); [| now rewrite Hbit].
  rewrite Z.testbit_true by lia. change (2 ^ 15) with 0x8000.
  assert (E : imm / 0x8000 = 1) by (Z.to_euclidean_division_equations; lia).
  now rewrite E.
Qed.

End Releases.

End EMAUI_Kernel.

(** ** EMAUI0.2: fetching, one turn of the loop, and [run] *)

Module EMAUI_Run.
Import EMAUI EMAUI_Memory EMAUI_Words EMAUI_Kernel.

Section Releases.

Context {numpy : numpy_release}.

(** [fetch_instruction], by what the word read does. *)
Lemma fetch_instruction_eq (k : Kernel) :
  fetch_instruction k =
    match read_word (pc k) (memory k) with
    | Ok w m => Ok w (set_cycles (cycles k + 1) (set_pc (pc k + 4) (set_memory m k)))
    | Raise e m => Raise e (set_memory m k)
    end.
Proof.
  unfold fetch_instruction, on_memory; unmonad.
  now destruct (read_word (pc k) (memory k)).
Qed.

(** Calling a closure never moves the program counter. *)
Lemma call_pc (f : func) (k : Kernel) : pc (final_state (call f k)) = pc k.
Proof.
  destruct f; cbn [call]; unfold on_graphics; unmonad; try reflexivity.
  - destruct numpy; [reflexivity |]. destruct (_ && _); reflexivity.
  - destruct (draw_rectangle _ _ _ _ _ _); reflexivity.
Qed.

Lemma call_decoded_pc (instruction : Z) (k : Kernel) :
  pc (final_state (call_decoded instruction k)) = pc k.
Proof.
  unfold call_decoded. destruct (decode_instruction instruction); [apply call_pc | reflexivity].
Qed.

(** A turn that ends normally has advanced the program counter by 4; a
    turn that raises left it where it was or 4 further. *)
Lemma cycle_pc (k : Kernel) :
  match cycle k with
  | Ok _ k' => pc k' = pc k + 4
  | Raise _ k' => pc k' = pc k \/ pc k' = pc k + 4
  end.
Proof.
  unfold cycle; unmonad. rewrite fetch_instruction_eq.
  destruct (read_word (pc k) (memory k)) as [w m | e m]; [| now left].
  pose proof (call_decoded_pc w (set_cycles (cycles k + 1) (set_pc (pc k + 4) (set_memory m k))))
    as H.
  destruct (call_decoded w _); cbn [final_state] in H; rewrite H; cbn; auto.
Qed.






Lemma run_stopped (fuel : nat) (k : Kernel) :
  running k = false -> run fuel k = Some (Ok tt k).
Proof. intros H. unfold run. destruct fuel; cbn [run_loop]; now rewrite H. Qed.


Lemma after_pc_mod4 (n : nat) : forall k : Kernel,
  pc k mod 4 = 0 -> pc (after n k) mod 4 = 0.
Proof.
  induction n as [| n IH]; intros k H; cbn [after]; [exact H |].
  destruct (running k); [| exact H].
  pose proof (cycle_pc k) as Hc.
  destruct (cycle k) as [u k' | e k'].
  - apply IH. rewrite Hc. rewrite <- Z.add_mod_idemp_l, H by lia. reflexivity.
  - destruct Hc as [-> | ->]; [exact H |].
    rewrite <- Z.add_mod_idemp_l, H by lia. reflexivity.
Qed.

Lemma load_program_pc (program : list Z) (k k0 : Kernel) (u : unit) :
  load_program program k = Ok u k0 -> pc k0 = 0.
Proof.
  unfold load_program; unmonad.
  destruct (load_bytes 0 program k) as [u' k1 | e k1]; intros H; [| discriminate H].
  assert (k0 = set_pc 0 k1) as -> by congruence. reflexivity.
Qed.

Lemma fetch_instruction_pc (k k' : Kernel) (w : Z) :
  fetch_instruction k = Ok w k' -> pc k' = pc k + 4.
Proof.
  rewrite fetch_instruction_eq.
  destruct (read_word (pc k) (memory k)) as [w' m | e m]; intros H; [| discriminate H].
  assert (k' = set_cycles (cycles k + 1) (set_pc (pc k + 4) (set_memory m k))) as ->
    by congruence.
  reflexivity.
Qed.

End Releases.

End EMAUI_Run.

(** ** EMAUI0.2: the rectangle primitive *)

Module EMAUI_Graphics.
Import EMAUI.

(** The cells [draw_rectangle] writes, whether or not the clipped
    rectangle is empty. *)
Lemma draw_rectangle_cells (x y width_ height_ color : Z) (g : Graphics) :
  exists g',
    draw_rectangle x y width_ height_ color g = Ok tt g' /\
    forall cy cx,
      framebuffer g' cy cx =
        if (Z.max 0 y <=? cy) && (cy <? Z.min height (uint32 (y + height_)))
           && (Z.max 0 x <=? cx) && (cx <? Z.min width (uint32 (x + width_)))
        then uint16 color
        else framebuffer g cy cx.
Proof.
  unfold draw_rectangle.
  destruct ((Z.max 0 x <? Z.min width (uint32 (x + width_)))
            && (Z.max 0 y <? Z.min height (uint32 (y + height_)))) eqn:E.
  - eexists; split; [reflexivity |]. reflexivity.
  - exists g; split; [reflexivity |]. intros cy cx.
    destruct (Z.leb_spec (Z.max 0 y) cy); [| reflexivity].
    destruct (Z.ltb_spec cy (Z.min height (uint32 (y + height_)))); [| reflexivity].
    destruct (Z.leb_spec (Z.max 0 x) cx); [| reflexivity].
    destruct (Z.ltb_spec cx (Z.min width (uint32 (x + width_)))); [| reflexivity].
    apply andb_false_iff in E as [E | E]; apply Z.ltb_ge in E; lia.
Qed.

End EMAUI_Graphics.

(** ** FlamesVM64: the executor and [run] *)

Module Flames_Run.
Import FlamesVM64.

Lemma fetch_instruction_vm64_eq (k : Kernel) :
  fetch_instruction k =
    match read_word (pc k) (mem k) with
    | Ok w m => Ok w (set_pc (pc k + 4) (set_mem m k))
    | Raise e m => Raise e (set_mem m k)
    end.
Proof.
  unfold fetch_instruction, on_memory; unmonad.
  now destruct (read_word (pc k) (mem k)).
Qed.

(** A word read never changes the memory. *)
Lemma read_word_state (address : Z) (m : Memory) :
  final_state (read_word address m) = m.
Proof.
  unfold read_word; unmonad.
  destruct (_ && _); [| reflexivity].
  now destruct (Struct.unpack_I _).
Qed.

(** The target of a jump is a multiple of 4, whatever the program counter. *)
Lemma jump_target_mod4 (p target : Z) :
  Z.lor (Z.land p 0xF0000000) (Z.shiftl target 2) mod 4 = 0.
Proof.
  change 4 with (2 ^ 2). rewrite <- Z.land_ones by lia.
  apply Z.bits_inj'; intros n Hn.
  rewrite Z.land_spec, Z.lor_spec, Z.land_spec, Z.testbit_ones, Z.bits_0 by lia.
  destruct (Z.ltb_spec n 2) as [Hlt | Hge]; [| now rewrite !andb_false_r].
  rewrite Z.shiftl_spec_low by lia.
  assert (Z.testbit 0xF0000000 n = false) as ->.
  { assert (n = 0 \/ n = 1) as [-> | ->] by lia; reflexivity. }
  now rewrite andb_false_r.
Qed.

(** The opcodes of [execute_instruction], one by one. *)
Lemma execute_add (instruction : Z) (k : Kernel) :
  Z.shiftr instruction 26 = 0 ->
  execute_instruction instruction k =
    Ok tt (set_register (Z.land (Z.shiftr instruction 11) 0x1F)
             (registers k (Z.land (Z.shiftr instruction 21) 0x1F)
              + registers k (Z.land (Z.shiftr instruction 16) 0x1F)) k).
Proof. intros H. unfold execute_instruction. now rewrite H. Qed.

Lemma execute_addi (instruction : Z) (k : Kernel) :
  Z.shiftr instruction 26 = 1 ->
  execute_instruction instruction k =
    Ok tt (set_register (Z.land (Z.shiftr instruction 21) 0x1F)
             (registers k (Z.land (Z.shiftr instruction 21) 0x1F)
              + Z.land instruction 0xFFFF) k).
Proof. intros H. unfold execute_instruction. now rewrite H. Qed.

Lemma execute_jump (instruction : Z) (k : Kernel) :
  Z.shiftr instruction 26 = 2 ->
  execute_instruction instruction k =
    Ok tt (set_pc (Z.lor (Z.land (pc k) 0xF0000000)
                     (Z.shiftl (Z.land instruction 0x3FFFFFF) 2)) k).
Proof. intros H. unfold execute_instruction. now rewrite H. Qed.

Lemma execute_halt (instruction : Z) (k : Kernel) :
  Z.shiftr instruction 26 = 63 ->
  execute_instruction instruction k = Ok tt (set_running false k).
Proof. intros H. unfold execute_instruction. now rewrite H. Qed.

Lemma execute_unknown (instruction : Z) (k : Kernel) :
  4 < Z.shiftr instruction 26 -> Z.shiftr instruction 26 <> 63 ->
  execute_instruction instruction k =
    Raise (ValueError_unknown_opcode (Z.shiftr instruction 26)) k.
Proof.
  intros H1 H2. unfold execute_instruction.
  repeat match goal with
         | |- context [?a =? ?b] => destruct (Z.eqb_spec a b); [lia |]
         end.
  reflexivity.
Qed.


(** The program counter stays a multiple of 4 over an instruction. *)
Lemma execute_pc_mod4 (instruction : Z) (k : Kernel) :
  pc k mod 4 = 0 -> pc (final_state (execute_instruction instruction k)) mod 4 = 0.
Proof.
  intros H. unfold execute_instruction, on_graphics; unmonad.
  repeat match goal with
         | |- context [if ?a =? ?b then _ else _] => destruct (a =? b)
         end; cbn [final_state pc set_register set_pc set_running]; try exact H.
  - apply jump_target_mod4.
  - now destruct (draw_pixel _ _ _ _).
Qed.

Lemma cycle_pc_mod4 (k : Kernel) :
  pc k mod 4 = 0 -> pc (final_state (cycle k)) mod 4 = 0.
Proof.
  intros H. unfold cycle; unmonad. rewrite fetch_instruction_vm64_eq.
  destruct (read_word (pc k) (mem k)) as [w m | e m]; [| exact H].
  pose proof (execute_pc_mod4 w (set_pc (pc k + 4) (set_mem m k))) as Hx.
  destruct (execute_instruction w _); apply Hx; cbn;
    rewrite <- Z.add_mod_idemp_l, H by lia; reflexivity.
Qed.

Lemma after_vm64_pc_mod4 (n : nat) : forall k : Kernel,
  pc k mod 4 = 0 -> pc (after n k) mod 4 = 0.
Proof.
  induction n as [| n IH]; intros k H; cbn [after]; [exact H |].
  destruct (running k); [| exact H].
  pose proof (cycle_pc_mod4 k H) as Hc.
  destruct (cycle k) as [u k' | e k']; [apply IH |]; exact Hc.
Qed.

Lemma load_program_vm64_pc (program : list Z) (k k0 : Kernel) (u : unit) :
  load_program program k = Ok u k0 -> pc k0 = 0.
Proof.
  unfold load_program; unmonad.
  destruct (load_bytes 0 program k) as [u' k1 | e k1]; intros H; [| discriminate H].
  assert (k0 = set_pc 0 k1) as -> by congruence. reflexivity.
Qed.

Lemma fetch_instruction_vm64_pc (k k' : Kernel) (w : Z) :
  fetch_instruction k = Ok w k' -> pc k' = pc k + 4.
Proof.
  rewrite fetch_instruction_vm64_eq.
  destruct (read_word (pc k) (mem k)) as [w' m | e m]; intros H; [| discriminate H].
  assert (k' = set_pc (pc k + 4) (set_mem m k)) as -> by congruence.
  reflexivity.
Qed.




End Flames_Run.

(** * The claims *)

(** Claim C1: the claim says that decoding always returns an operation.
    It does not: on the word 0, as on every register-type word whose funct
    is neither 0x20 nor 0x22, [decode_instruction] returns [None], and the
    call that [run] makes of that result raises [TypeError] at once. *)
Theorem decode_instruction_returns_None :
  EMAUI.decode_instruction 0 = None /\
  (forall instruction : Z,
     EMAUI.decode_instruction instruction = None <->
     Z.shiftr instruction 26 = 0 /\
     Z.land instruction 0x3F <> 0x20 /\ Z.land instruction 0x3F <> 0x22) /\
  (forall (numpy : numpy_release) (k : EMAUI.Kernel),
     EMAUI.call_decoded 0 k = Raise TypeError_not_callable k).
Proof.
  split; [reflexivity |]. split; [apply EMAUI_Kernel.decode_None_iff |].
  intros numpy k. reflexivity.
Qed.

(** Claim C2: the claim says that a word write whose last byte would lie
    past the end of its region fails instead of writing a shorter span.
    In EMAUI0.2 it need not: [write_word] checks the first address only,
    and at the last three addresses of RDRAM a value whose four bytes are
    digits that spell a number up to 255 (0x30303031, the string 0001, for
    one) is stored without an error. The number goes to the cells from the
    address to the end of RDRAM, fewer than four; every other cell keeps
    its value and the write counter is advanced by 4. *)
Theorem word_write_past_the_end_is_cut_short store_literal (address value : Z)
    (bytes : list Z) (m : EMAUI.Memory) :
  EMAUI.RDRAM_END - 2 <= address <= EMAUI.RDRAM_END ->
  Struct.pack_I value = Some bytes ->
  forallb Numpy.digit bytes = true -> Numpy.decimal bytes <= 255 ->
  exists m1,
    EMAUI.write_word store_literal address value m = Ok tt m1 /\
    (forall j, address <= j <= EMAUI.RDRAM_END ->
       EMAUI.rdram m1 j = Numpy.decimal bytes) /\
    (forall j, j < address \/ EMAUI.RDRAM_END < j ->
       EMAUI.rdram m1 j = EMAUI.rdram m j) /\
    EMAUI.pif_rom m1 = EMAUI.pif_rom m /\ EMAUI.reads m1 = EMAUI.reads m /\
    EMAUI.writes m1 = EMAUI.writes m + 4.
Proof.
  intros Ha Hp Hd Hn.
  assert (Hin : EMAUI.RDRAM_START <= address <= EMAUI.RDRAM_END)
    by (unfold EMAUI.RDRAM_END, EMAUI.RDRAM_START, EMAUI.RDRAM_SIZE in *; lia).
  eexists. split.
  - exact (EMAUI_Words.write_word_digits store_literal address value m _ bytes
             (EMAUI_Memory.map_address_rdram address m Hin) Hp Hd Hn).
  - cbn [EMAUI.rdram EMAUI.pif_rom EMAUI.reads EMAUI.writes EMAUI.set_rdram
         EMAUI.add_writes].
    unfold Numpy.fill, EMAUI.RDRAM_END, EMAUI.RDRAM_START, EMAUI.RDRAM_SIZE in *.
    repeat split.
    + intros j Hj. now settle_cmp.
    + intros j Hj.
      destruct (Z.leb_spec (address - 0) j); [| reflexivity].
      destruct (Z.ltb_spec j (Z.min (address - 0 + 4) (8 * 1024 * 1024)));
        [lia | reflexivity].
Qed.

(** The word 0x30303031 at the last address but two of RDRAM: the last
    three cells read 1 afterwards. *)
Lemma word_write_past_the_end_is_cut_short_witness :
  exists m1,
    EMAUI.write_word Examples.keep_literal (EMAUI.RDRAM_END - 2) 0x30303031
      EMAUI.Memory_init = Ok tt m1 /\
    EMAUI.rdram m1 (EMAUI.RDRAM_END - 2) = 1 /\
    EMAUI.rdram m1 EMAUI.RDRAM_END = 1 /\
    EMAUI.rdram m1 (EMAUI.RDRAM_END - 3) = 0.
Proof.
  destruct (word_write_past_the_end_is_cut_short Examples.keep_literal
              (EMAUI.RDRAM_END - 2) 0x30303031 [0x30; 0x30; 0x30; 0x31]
              EMAUI.Memory_init) as (m1 & Hw & Hin & Hout & _).
  - vm_compute. split; intros H; discriminate H.
  - reflexivity.
  - reflexivity.
  - vm_compute. intros H; discriminate H.
  - exists m1. split; [exact Hw |]. split; [| split].
    + apply Hin. vm_compute. split; intros H; discriminate H.
    + apply Hin. vm_compute. split; intros H; discriminate H.
    + rewrite Hout; [reflexivity | left; reflexivity].
Defined.

(** Claim C9: a byte write to any address of the PIF ROM raises the
    write-protection error with the write counter advanced by 1, and with
    the two arrays and the read counter as they were. *)
Theorem write_byte_pif_rom_counted (address value : Z) (m : EMAUI.Memory) :
  EMAUI.PIF_ROM_START <= address <= EMAUI.PIF_ROM_END ->
  EMAUI.write_byte address value m =
    Raise MemoryError_pif_rom
      (EMAUI.mkMemory (EMAUI.rdram m) (EMAUI.pif_rom m) (EMAUI.reads m)
         (EMAUI.writes m + 1)).
Proof.
  intros H.
  exact (EMAUI_Memory.write_byte_pif_rom address value m _
           (EMAUI_Memory.map_address_pif_rom address m H)).
Qed.

Lemma write_byte_pif_rom_counted_witness :
  EMAUI.write_byte 0x1FC00000 7 EMAUI.Memory_init =
    Raise MemoryError_pif_rom (EMAUI.mkMemory Numpy.zeros Numpy.zeros 0 (0 + 1)).
Proof.
  apply (write_byte_pif_rom_counted 0x1FC00000 7 EMAUI.Memory_init).
  vm_compute. split; intros H; discriminate H.
Defined.

(** Claim C10: a byte write to a writable address stores the value modulo
    256, whatever the integer: the byte read back there is [value mod 256].
    In EMAUI0.2 the writable addresses are those of RDRAM, in FlamesVM64
    those below the memory's size. *)
Theorem write_byte_stores_low_byte :
  (forall (address value : Z) (m : EMAUI.Memory),
     EMAUI.RDRAM_START <= address <= EMAUI.RDRAM_END ->
     exists m1,
       EMAUI.write_byte address value m = Ok tt m1 /\
       EMAUI.read_byte address m1 = Ok (value mod 256) (EMAUI.add_reads 1 m1)) /\
  (forall (address value : Z) (m : FlamesVM64.Memory),
     FlamesVM64.well_sized m -> 0 <= address < FlamesVM64.size m ->
     exists m1,
       FlamesVM64.write_byte address value m = Ok tt m1 /\
       FlamesVM64.read_byte address m1 = Ok (value mod 256) m1).
Proof.
  split.
  - intros address value m H.
    pose proof (EMAUI_Memory.map_address_rdram address m H) as Hmap.
    eexists. split; [exact (EMAUI_Memory.write_byte_rdram address value m _ Hmap) |].
    rewrite (EMAUI_Memory.read_byte_mapped address _ EMAUI.RDRAM (address - EMAUI.RDRAM_START)
               (EMAUI_Memory.map_address_rdram address _ H)).
    f_equal. cbn [EMAUI.region_array EMAUI.set_rdram EMAUI.rdram]. unfold Numpy.store.
    rewrite Z.eqb_refl. apply land_255_mod.
  - intros address value m Hwf Ha.
    destruct (Flames_Memory.write_then_read_byte address value m Hwf Ha)
      as (m1 & Hw & Hr & _).
    now exists m1.
Qed.

Lemma write_byte_stores_low_byte_witness :
  (exists m1,
     EMAUI.write_byte 16 300 EMAUI.Memory_init = Ok tt m1 /\
     EMAUI.read_byte 16 m1 = Ok (300 mod 256) (EMAUI.add_reads 1 m1)) /\
  (exists m1,
     FlamesVM64.write_byte 3 300 (FlamesVM64.Memory_init 8) = Ok tt m1 /\
     FlamesVM64.read_byte 3 m1 = Ok (300 mod 256) m1).
Proof.
  split.
  - apply (proj1 write_byte_stores_low_byte 16 300 EMAUI.Memory_init).
    vm_compute. split; intros H; discriminate H.
  - apply (proj2 write_byte_stores_low_byte 3 300 (FlamesVM64.Memory_init 8)).
    + reflexivity.
    + vm_compute. split; [intros H; discriminate H | reflexivity].
Defined.




(** Claim C4, amended: in EMAUI0.2 the words of opcode 0 with funct 0x20
    and 0x22 store the sum and the difference of reg[rs] and reg[rt],
    reduced modulo 2^32, into reg[rd], change no other register and never
    raise. In FlamesVM64 every word of opcode 0 stores the exact sum, not
    reduced, and there is no subtraction. *)
Theorem add_sub_registers (numpy : numpy_release) :
  (forall (instruction : Z) (k : EMAUI.Kernel),
     let rs := Z.land (Z.shiftr instruction 21) 0x1F in
     let rt := Z.land (Z.shiftr instruction 16) 0x1F in
     let rd := Z.land (Z.shiftr instruction 11) 0x1F in
     Z.shiftr instruction 26 = 0 -> Z.land instruction 0x3F = 0x20 ->
     exists k',
       EMAUI.call_decoded instruction k = Ok tt k' /\
       EMAUI.registers k' rd = (EMAUI.registers k rs + EMAUI.registers k rt) mod 2 ^ 32 /\
       forall j, j <> rd -> EMAUI.registers k' j = EMAUI.registers k j) /\
  (forall (instruction : Z) (k : EMAUI.Kernel),
     let rs := Z.land (Z.shiftr instruction 21) 0x1F in
     let rt := Z.land (Z.shiftr instruction 16) 0x1F in
     let rd := Z.land (Z.shiftr instruction 11) 0x1F in
     Z.shiftr instruction 26 = 0 -> Z.land instruction 0x3F = 0x22 ->
     exists k',
       EMAUI.call_decoded instruction k = Ok tt k' /\
       EMAUI.registers k' rd = (EMAUI.registers k rs - EMAUI.registers k rt) mod 2 ^ 32 /\
       forall j, j <> rd -> EMAUI.registers k' j = EMAUI.registers k j) /\
  (forall (instruction : Z) (k : FlamesVM64.Kernel),
     let rs := Z.land (Z.shiftr instruction 21) 0x1F in
     let rt := Z.land (Z.shiftr instruction 16) 0x1F in
     let rd := Z.land (Z.shiftr instruction 11) 0x1F in
     Z.shiftr instruction 26 = 0 ->
     FlamesVM64.execute_instruction instruction k =
       Ok tt (FlamesVM64.set_register rd
                (FlamesVM64.registers k rs + FlamesVM64.registers k rt) k)).
Proof.
  repeat split.
  - intros instruction k rs rt rd H0 H1. unfold EMAUI.call_decoded.
    rewrite (EMAUI_Kernel.decode_add instruction H0 H1).
    destruct (EMAUI_Kernel.call_add rd rs rt k) as (k' & Hc & Hr & Ho & _).
    exists k'. auto.
  - intros instruction k rs rt rd H0 H1. unfold EMAUI.call_decoded.
    rewrite (EMAUI_Kernel.decode_sub instruction H0 H1).
    destruct (EMAUI_Kernel.call_sub rd rs rt k) as (k' & Hc & Hr & Ho & _).
    exists k'. auto.
  - intros instruction k rs rt rd H0. now apply Flames_Run.execute_add.
Qed.

(** add r3, r1, r2 with reg[1] = 0xFFFFFFFF and reg[2] = 1 in EMAUI0.2. *)
Lemma add_sub_registers_witness :
  exists k',
    EMAUI.call_decoded (numpy := NumPy_2) 0x00221820
      (Examples.emaui_registers 0xFFFFFFFF 1 0 0 0) = Ok tt k' /\
    EMAUI.registers k' 3 = 0.
Proof.
  destruct (proj1 (add_sub_registers NumPy_2) 0x00221820
              (Examples.emaui_registers 0xFFFFFFFF 1 0 0 0) eq_refl eq_refl)
    as (k' & Hc & Hr & _).
  exists k'. split; [exact Hc | exact Hr].
Defined.

(** Against claim C4 as stated: in FlamesVM64, add r3, r1, r2 with
    reg[1] = 0xFFFFFFFF and reg[2] = 1 leaves 0x100000000 in reg[3]. *)
Lemma add_vm64_does_not_wrap :
  exists k',
    FlamesVM64.execute_instruction 0x00221820
      (Examples.flames_registers 16 0xFFFFFFFF 1 0) = Ok tt k' /\
    FlamesVM64.registers k' 3 = 0x100000000.
Proof.
  exists (final_state (FlamesVM64.execute_instruction 0x00221820
                         (Examples.flames_registers 16 0xFFFFFFFF 1 0))).
  split; vm_compute; reflexivity.
Qed.

(** Claim C5: the claim says that a word written to a writable region is
    read back unchanged. In EMAUI0.2 [write_word] does not store a word:
    numpy takes the four packed bytes for one string and reads it as a
    decimal literal. A value whose most significant byte can not begin a
    literal (every value below 0x09000000, for one) is refused with
    [ValueError], the write counter advanced by 4 and no cell changed. A
    value whose four bytes are digits that spell a number up to 255 is
    stored as that number in each of the four cells, so that [read_word]
    returns the number four times over, not the value written. *)
Theorem write_word_stores_no_word store_literal :
  (forall (address value : Z) (m : EMAUI.Memory),
     EMAUI.RDRAM_START <= address <= EMAUI.RDRAM_END ->
     0 <= value < 2 ^ 32 ->
     Numpy.literal_start (Z.shiftr value 24) = false ->
     EMAUI.write_word store_literal address value m =
       Raise ValueError_literal (EMAUI.add_writes 4 m)) /\
  (forall (address value : Z) (bytes : list Z) (m : EMAUI.Memory),
     EMAUI.RDRAM_START <= address -> address + 3 <= EMAUI.RDRAM_END ->
     Struct.pack_I value = Some bytes ->
     forallb Numpy.digit bytes = true -> Numpy.decimal bytes <= 255 ->
     let n := Numpy.decimal bytes in
     exists m1,
       EMAUI.write_word store_literal address value m = Ok tt m1 /\
       EMAUI.read_word address m1 =
         Ok (Z.lor (Z.shiftl n 24) (Z.lor (Z.shiftl n 16) (Z.lor (Z.shiftl n 8) n)))
            (EMAUI.add_reads 4 m1)).
Proof.
  split.
  - intros address value m Ha Hv Hl.
    apply (EMAUI_Words.write_word_not_literal store_literal address value m
             (address - EMAUI.RDRAM_START)
             (EMAUI_Memory.map_address_rdram address m Ha) Hv).
    rewrite land_255_mod, Z.mod_small; [exact Hl |].
    rewrite Z.shiftr_div_pow2 by lia. split.
    + apply Z.div_pos; lia.
    + apply Z.div_lt_upper_bound; lia.
  - intros address value bytes m Ha Hend Hp Hd Hn n.
    assert (Hin : EMAUI.RDRAM_START <= address <= EMAUI.RDRAM_END) by lia.
    eexists. split.
    + exact (EMAUI_Words.write_word_digits store_literal address value m _ bytes
               (EMAUI_Memory.map_address_rdram address m Hin) Hp Hd Hn).
    + rewrite (EMAUI_Words.read_word_inside address _ EMAUI.RDRAM
                 (address - EMAUI.RDRAM_START)
                 (EMAUI_Memory.map_address_rdram address _ Hin))
        by (unfold EMAUI.region_size, EMAUI.RDRAM_END in *; lia).
      cbn [EMAUI.region_array EMAUI.rdram EMAUI.set_rdram].
      unfold Numpy.fill, EMAUI.RDRAM_END, EMAUI.RDRAM_START, EMAUI.RDRAM_SIZE in *.
      fold n. now settle_cmp.
Qed.

(** The word 5 at address 0 is refused; the word 0x30303031 is stored as
    four cells of 1 and read back as 0x01010101. *)
Lemma write_word_stores_no_word_witness :
  EMAUI.write_word Examples.keep_literal 0 5 EMAUI.Memory_init =
    Raise ValueError_literal (EMAUI.add_writes 4 EMAUI.Memory_init) /\
  exists m1,
    EMAUI.write_word Examples.keep_literal 0 0x30303031 EMAUI.Memory_init = Ok tt m1 /\
    EMAUI.read_word 0 m1 = Ok 0x01010101 (EMAUI.add_reads 4 m1).
Proof.
  split.
  - apply (proj1 (write_word_stores_no_word Examples.keep_literal) 0 5 EMAUI.Memory_init).
    + vm_compute. split; intros H; discriminate H.
    + vm_compute. split; [intros H; discriminate H | reflexivity].
    + reflexivity.
  - apply (proj2 (write_word_stores_no_word Examples.keep_literal) 0 0x30303031
             [0x30; 0x30; 0x30; 0x31] EMAUI.Memory_init).
    + vm_compute. intros H; discriminate H.
    + vm_compute. intros H; discriminate H.
    + reflexivity.
    + reflexivity.
    + vm_compute. intros H; discriminate H.
Defined.

(** Claim C6, amended: in EMAUI0.2 a word of opcode 0x08 sets reg[rt] to
    (reg[rs] + sign_extend16(imm16)) mod 2^32 and changes no other
    register, for every immediate below 0x8000, and for every immediate
    when the sum is taken by a numpy up to 1.x; sign_extend16 takes
    0x10000 off an immediate whose bit 15 is set: 0x8000 becomes
    0xFFFF8000 modulo 2^32, and 0x7FFF remains. In FlamesVM64 a word of
    opcode 1 adds the immediate, not sign-extended, to reg[rs] itself,
    without reducing the sum. *)
Theorem add_immediate (numpy : numpy_release) :
  (forall (instruction : Z) (k : EMAUI.Kernel),
     let rs := Z.land (Z.shiftr instruction 21) 0x1F in
     let rt := Z.land (Z.shiftr instruction 16) 0x1F in
     let imm16 := Z.land instruction 0xFFFF in
     Z.shiftr instruction 26 = 0x08 ->
     numpy = NumPy_1 \/ imm16 < 0x8000 ->
     exists k',
       EMAUI.call_decoded instruction k = Ok tt k' /\
       EMAUI.registers k' rt =
         (EMAUI.registers k rs + EMAUI.sign_extend16 imm16) mod 2 ^ 32 /\
       forall j, j <> rt -> EMAUI.registers k' j = EMAUI.registers k j) /\
  (forall imm : Z,
     EMAUI.sign_extend16 imm = if Z.testbit imm 15 then imm - 0x10000 else imm) /\
  uint32 (EMAUI.sign_extend16 0x8000) = 0xFFFF8000 /\
  EMAUI.sign_extend16 0x7FFF = 0x7FFF /\
  (forall (instruction : Z) (k : FlamesVM64.Kernel),
     let rs := Z.land (Z.shiftr instruction 21) 0x1F in
     let imm16 := Z.land instruction 0xFFFF in
     Z.shiftr instruction 26 = 1 ->
     FlamesVM64.execute_instruction instruction k =
       Ok tt (FlamesVM64.set_register rs (FlamesVM64.registers k rs + imm16) k)).
Proof.
  repeat split.
  - intros instruction k rs rt imm16 H0 Hrel. unfold EMAUI.call_decoded.
    rewrite (EMAUI_Kernel.decode_addi instruction H0).
    destruct (EMAUI_Kernel.call_addi rt rs (EMAUI.sign_extend16 imm16) k)
      as (k' & Hc & Hr & Ho & _).
    + destruct Hrel as [Hrel | Hrel]; [now left | right].
      pose proof (EMAUI_Kernel.land_ffff_range instruction) as Hi. fold imm16 in Hi.
      rewrite EMAUI_Kernel.sign_extend16_low by lia. lia.
    + exists k'. auto.
  - apply EMAUI_Kernel.sign_extend16_spec.
  - intros instruction k rs imm16 H0. now apply Flames_Run.execute_addi.
Qed.

(** addi r2, r1, 7 with reg[1] = 5 under NumPy 2: reg[2] becomes 12;
    addi r2, r1, 0xFFFF with reg[1] = 5 under NumPy 1: reg[2] becomes 4. *)
Lemma add_immediate_witness :
  (exists k',
     EMAUI.call_decoded (numpy := NumPy_2) 0x20220007
       (Examples.emaui_registers 5 0 0 0 0) = Ok tt k' /\
     EMAUI.registers k' 2 = 12) /\
  (exists k',
     EMAUI.call_decoded (numpy := NumPy_1) 0x2022FFFF
       (Examples.emaui_registers 5 0 0 0 0) = Ok tt k' /\
     EMAUI.registers k' 2 = 4).
Proof.
  split.
  - destruct (proj1 (add_immediate NumPy_2) 0x20220007
                (Examples.emaui_registers 5 0 0 0 0) eq_refl)
      as (k' & Hc & Hr & _).
    + right. reflexivity.
    + exists k'. split; [exact Hc | exact Hr].
  - destruct (proj1 (add_immediate NumPy_1) 0x2022FFFF
                (Examples.emaui_registers 5 0 0 0 0) eq_refl)
      as (k' & Hc & Hr & _).
    + left. reflexivity.
    + exists k'. split; [exact Hc | exact Hr].
Defined.

(** Against claim C6 as stated: in FlamesVM64 the word of opcode 1 with
    rs = 1, rt = 2 and immediate 0xFFFF, run with reg[1] = 5, leaves 65540
    in reg[1] and reg[2] as it was. *)
Lemma add_immediate_vm64_zero_extends :
  exists k',
    FlamesVM64.execute_instruction 0x0422FFFF (Examples.flames_registers 16 5 0 0)
      = Ok tt k' /\
    FlamesVM64.registers k' 1 = 65540 /\ FlamesVM64.registers k' 2 = 0.
Proof.
  exists (final_state (FlamesVM64.execute_instruction 0x0422FFFF
                         (Examples.flames_registers 16 5 0 0))).
  repeat split; vm_compute; reflexivity.
Qed.

(** Claim C7: after a program was loaded the program counter is 0, and it
    is a multiple of 4 in every state the loop of [run] reaches from
    there, in both machines. A fetch that succeeds advances it by exactly
    4; the jump of FlamesVM64 sets it to (pc AND 0xF0000000) OR (target
    shifted left by 2), pc being the advanced counter, which is a multiple
    of 4 again. *)
Theorem pc_multiple_of_4 (numpy : numpy_release) :
  (forall (program : list Z) (k k0 : EMAUI.Kernel) (n : nat),
     EMAUI.load_program program k = Ok tt k0 ->
     EMAUI.pc k0 = 0 /\ EMAUI.pc (EMAUI.after n k0) mod 4 = 0) /\
  (forall (k k' : EMAUI.Kernel) (w : Z),
     EMAUI.fetch_instruction k = Ok w k' -> EMAUI.pc k' = EMAUI.pc k + 4) /\
  (forall (program : list Z) (k k0 : FlamesVM64.Kernel) (n : nat),
     FlamesVM64.load_program program k = Ok tt k0 ->
     FlamesVM64.pc k0 = 0 /\ FlamesVM64.pc (FlamesVM64.after n k0) mod 4 = 0) /\
  (forall (k k' : FlamesVM64.Kernel) (w : Z),
     FlamesVM64.fetch_instruction k = Ok w k' ->
     FlamesVM64.pc k' = FlamesVM64.pc k + 4) /\
  (forall (instruction : Z) (k : FlamesVM64.Kernel),
     let target := Z.land instruction 0x3FFFFFF in
     let pc' := Z.lor (Z.land (FlamesVM64.pc k) 0xF0000000) (Z.shiftl target 2) in
     Z.shiftr instruction 26 = 2 ->
     FlamesVM64.execute_instruction instruction k = Ok tt (FlamesVM64.set_pc pc' k) /\
     pc' mod 4 = 0).
Proof.
  repeat split.
  - now apply (EMAUI_Run.load_program_pc program k k0 tt).
  - apply EMAUI_Run.after_pc_mod4.
    now rewrite (EMAUI_Run.load_program_pc program k k0 tt).
  - apply EMAUI_Run.fetch_instruction_pc.
  - now apply (Flames_Run.load_program_vm64_pc program k k0 tt).
  - apply Flames_Run.after_vm64_pc_mod4.
    now rewrite (Flames_Run.load_program_vm64_pc program k k0 tt).
  - apply Flames_Run.fetch_instruction_vm64_pc.
  - now apply Flames_Run.execute_jump.
  - apply Flames_Run.jump_target_mod4.
Qed.

(** FlamesVM64 on the program "jump to word 3; halt" (the halt at word 3). *)
Lemma pc_multiple_of_4_witness :
  FlamesVM64.pc
    (FlamesVM64.after 2
       (final_state
          (FlamesVM64.load_program
             [0x08; 0; 0; 3; 0; 0; 0; 0; 0; 0; 0; 0; 0xFC; 0; 0; 0]
             (Examples.flames_fresh 32)))) mod 4 = 0.
Proof.
  apply (proj1 (proj2 (proj2 (pc_multiple_of_4 NumPy_2)))
           [0x08; 0; 0; 3; 0; 0; 0; 0; 0; 0; 0; 0; 0xFC; 0; 0; 0]
           (Examples.flames_fresh 32)).
  vm_compute. reflexivity.
Defined.

(** Claim C8, amended: a word of opcode 0x2D never raises, changes nothing
    but the framebuffer, and with x, y, w, h, color the contents of
    registers 1 to 5 writes [color mod 2^16] to the cells of columns
    max(0, x) up to min(640, (x + w) mod 2^32) and rows max(0, y) up to
    min(480, (y + h) mod 2^32), every other cell keeping its value. When
    x + w and y + h stay below 2^32 and the color below 2^16, these are
    exactly the cells of [x, x+w) x [y, y+h) inside the 640 x 480 screen,
    and they read [color]. *)
Theorem draw_rectangle_instruction (numpy : numpy_release) (instruction : Z)
    (k : EMAUI.Kernel) (x y w h color : Z) :
  Z.shiftr instruction 26 = 0x2D ->
  EMAUI.registers k 1 = x -> EMAUI.registers k 2 = y ->
  EMAUI.registers k 3 = w -> EMAUI.registers k 4 = h ->
  EMAUI.registers k 5 = color ->
  exists k',
    EMAUI.call_decoded instruction k = Ok tt k' /\
    EMAUI.registers k' = EMAUI.registers k /\ EMAUI.pc k' = EMAUI.pc k /\
    EMAUI.memory k' = EMAUI.memory k /\ EMAUI.running k' = EMAUI.running k /\
    (forall cy cx,
       EMAUI.framebuffer (EMAUI.graphics k') cy cx =
         if (Z.max 0 y <=? cy) && (cy <? Z.min 480 ((y + h) mod 2 ^ 32))
            && (Z.max 0 x <=? cx) && (cx <? Z.min 640 ((x + w) mod 2 ^ 32))
         then color mod 2 ^ 16
         else EMAUI.framebuffer (EMAUI.graphics k) cy cx) /\
    (0 <= x -> 0 <= y -> 0 <= w -> 0 <= h ->
     x + w < 2 ^ 32 -> y + h < 2 ^ 32 -> 0 <= color < 2 ^ 16 ->
     forall cy cx,
       (x <= cx < x + w /\ y <= cy < y + h /\ 0 <= cx < 640 /\ 0 <= cy < 480 ->
        EMAUI.framebuffer (EMAUI.graphics k') cy cx = color) /\
       (~ (x <= cx < x + w /\ y <= cy < y + h /\ 0 <= cx < 640 /\ 0 <= cy < 480) ->
        EMAUI.framebuffer (EMAUI.graphics k') cy cx =
          EMAUI.framebuffer (EMAUI.graphics k) cy cx)).
Proof.
  intros H0 <- <- <- <- <-. unfold EMAUI.call_decoded.
  rewrite (EMAUI_Kernel.decode_draw_rectangle instruction H0).
  cbn [EMAUI.call]. unfold EMAUI.on_graphics; unmonad.
  destruct (EMAUI_Graphics.draw_rectangle_cells (EMAUI.registers k 1) (EMAUI.registers k 2)
              (EMAUI.registers k 3) (EMAUI.registers k 4) (EMAUI.registers k 5)
              (EMAUI.graphics k)) as (g' & -> & Hcells).
  eexists. split; [reflexivity |].
  cbn [EMAUI.registers EMAUI.pc EMAUI.memory EMAUI.running EMAUI.graphics
       EMAUI.set_graphics].
  repeat (split; [reflexivity |]).
  split; [exact Hcells |].
  intros Hx Hy Hw Hh Hxw Hyh Hc cy cx. rewrite Hcells.
  unfold uint32, uint16, EMAUI.height, EMAUI.width.
  rewrite !Z.mod_small by lia.
  destruct (Z.leb_spec (Z.max 0 (EMAUI.registers k 2)) cy);
    destruct (Z.ltb_spec cy (Z.min 480 (EMAUI.registers k 2 + EMAUI.registers k 4)));
    destruct (Z.leb_spec (Z.max 0 (EMAUI.registers k 1)) cx);
    destruct (Z.ltb_spec cx (Z.min 640 (EMAUI.registers k 1 + EMAUI.registers k 3)));
    cbn [andb]; split; intros; try reflexivity; lia.
Qed.

(** The rectangle at (100, 200), 150 wide and 10 high, of color 0x1F. *)
Lemma draw_rectangle_instruction_witness :
  exists k',
    EMAUI.call_decoded (numpy := NumPy_2) 0xB4000000
      (Examples.emaui_registers 100 200 150 10 0x1F) = Ok tt k' /\
    EMAUI.framebuffer (EMAUI.graphics k') 200 100 = 0x1F /\
    EMAUI.framebuffer (EMAUI.graphics k') 209 249 = 0x1F /\
    EMAUI.framebuffer (EMAUI.graphics k') 210 249 = 0 /\
    EMAUI.framebuffer (EMAUI.graphics k') 209 250 = 0.
Proof.
  destruct (draw_rectangle_instruction NumPy_2 0xB4000000
              (Examples.emaui_registers 100 200 150 10 0x1F) 100 200 150 10 0x1F
              eq_refl eq_refl eq_refl eq_refl eq_refl eq_refl)
    as (k' & Hc & _ & _ & _ & _ & Hcells & _).
  exists k'. split; [exact Hc |].
  rewrite !Hcells. repeat split; reflexivity.
Defined.

(** Against claim C8 as stated: after the program
    addi r1, r1, 1; lui r3, 0xFFFF; addi r3, r3, 0x7FFF; addi r3, r3, 0x7FFF;
    addi r3, r3, 1; addi r4, r4, 1; addi r5, r5, 0x1F; draw rectangle; halt
    the registers hold x = 1, y = 0, w = 0xFFFFFFFF, h = 1, color = 0x1F,
    under either release of numpy (no immediate is negative). The cell of
    row 0 and column 1 lies in [x, x+w) x [y, y+h) and on the screen, yet
    it still reads 0: x + w wrapped to 0, nothing was drawn. *)
Lemma draw_rectangle_wraps :
  exists k0 k',
    EMAUI.load_program
      [0x20; 0x21; 0x00; 0x01;  0x3C; 0x03; 0xFF; 0xFF;  0x20; 0x63; 0x7F; 0xFF;
       0x20; 0x63; 0x7F; 0xFF;  0x20; 0x63; 0x00; 0x01;  0x20; 0x84; 0x00; 0x01;
       0x20; 0xA5; 0x00; 0x1F;  0xB4; 0x00; 0x00; 0x00;  0xFC; 0x00; 0x00; 0x00]
      Examples.emaui_fresh = Ok tt k0 /\
    EMAUI.run (numpy := NumPy_2) 9 k0 = Some (Ok tt k') /\
    EMAUI.run (numpy := NumPy_1) 9 k0 = Some (Ok tt k') /\
    EMAUI.dialogs k' = [] /\
    EMAUI.registers k' 1 = 1 /\ EMAUI.registers k' 2 = 0 /\
    EMAUI.registers k' 3 = 0xFFFFFFFF /\ EMAUI.registers k' 4 = 1 /\
    EMAUI.registers k' 5 = 0x1F /\
    (1 <= 1 < 1 + 0xFFFFFFFF /\ 0 <= 0 < 0 + 1 /\ 0 <= 1 < 640 /\ 0 <= 0 < 480) /\
    EMAUI.framebuffer (EMAUI.graphics k') 0 1 = 0.
Proof.
  pose (prog := [0x20; 0x21; 0x00; 0x01;  0x3C; 0x03; 0xFF; 0xFF;  0x20; 0x63; 0x7F; 0xFF;
                 0x20; 0x63; 0x7F; 0xFF;  0x20; 0x63; 0x00; 0x01;  0x20; 0x84; 0x00; 0x01;
                 0x20; 0xA5; 0x00; 0x1F;  0xB4; 0x00; 0x00; 0x00;  0xFC; 0x00; 0x00; 0x00]).
  exists (final_state (EMAUI.load_program prog Examples.emaui_fresh)).
  exists (EMAUI.after (numpy := NumPy_2) 9
            (final_state (EMAUI.load_program prog Examples.emaui_fresh))).
  repeat match goal with |- _ /\ _ => split end;
    vm_compute; first [reflexivity | intros H; discriminate H].
Qed.

(** * Further properties *)

(** ** EMAUI0.2: the memory *)

Module EMAUI_Frame.
Import EMAUI EMAUI_Memory EMAUI_Words.

(** [map_address] never changes the memory. *)
Lemma map_address_state (address : Z) (m : Memory) :
  final_state (map_address address m) = m.
Proof.
  unfold map_address; unmonad.
  destruct (_ && _); [reflexivity |]. destruct (_ && _); reflexivity.
Qed.

Lemma map_address_cases (address : Z) (m : Memory) :
  (exists r offset, map_address address m = Ok (r, offset) m) \/
  map_address address m = Raise (MemoryError_invalid address) m.
Proof.
  unfold map_address; unmonad.
  destruct (_ && _); [left; now do 2 eexists |].
  destruct (_ && _); [left; now do 2 eexists | now right].
Qed.

Lemma map_address_refused_any (address : Z) (m m' : Memory) :
  map_address address m = Raise (MemoryError_invalid address) m ->
  map_address address m' = Raise (MemoryError_invalid address) m'.
Proof.
  unfold map_address; unmonad.
  destruct (_ && _); [intros H; discriminate H |].
  destruct (_ && _); [intros H; discriminate H | reflexivity].
Qed.

Lemma write_byte_pif (address value : Z) (m : Memory) :
  pif_rom (final_state (write_byte address value m)) = pif_rom m.
Proof.
  unfold write_byte; unmonad.
  destruct (map_address_cases address m) as [(r & offset & ->) | ->]; [| reflexivity].
  now destruct r.
Qed.

Lemma load_bytes_frame (program : list Z) : forall (i : Z) (k : Kernel),
  let k1 := final_state (load_bytes i program k) in
  pif_rom (memory k1) = pif_rom (memory k) /\ reads (memory k1) = reads (memory k) /\
  graphics k1 = graphics k /\ pc k1 = pc k /\ registers k1 = registers k /\
  running k1 = running k /\ cycles k1 = cycles k /\ dialogs k1 = dialogs k.
Proof.
  induction program as [| byte rest IH]; intros i k; cbn [load_bytes]; unmonad.
  - cbn. auto 10.
  - unfold on_memory; unmonad.
    pose proof (write_byte_pif i byte (memory k)) as Hp.
    assert (Hr : reads (final_state (write_byte i byte (memory k))) = reads (memory k)).
    { unfold write_byte; unmonad.
      destruct (map_address_cases i (memory k)) as [(r & offset & ->) | ->]; [| reflexivity].
      now destruct r. }
    destruct (write_byte i byte (memory k)) as [u m1 | e m1]; cbn [final_state] in *.
    + specialize (IH (i + 1) (set_memory m1 k)). cbn zeta in IH.
      destruct IH as (H1 & H2 & H3 & H4 & H5 & H6 & H7 & H8).
      rewrite H1, H2, H3, H4, H5, H6, H7, H8. cbn. auto 10.
    + cbn. auto 10.
Qed.

(** What [load_bytes] stores, when every address is one of RDRAM. *)
Lemma load_bytes_cells (program : list Z) : forall (i : Z) (k : Kernel),
  0 <= i -> i + Z.of_nat (length program) <= RDRAM_SIZE ->
  exists k1,
    load_bytes i program k = Ok tt k1 /\
    (forall n, (n < length program)%nat ->
       rdram (memory k1) (i + Z.of_nat n) = nth n program 0 mod 256) /\
    (forall j, j < i \/ i + Z.of_nat (length program) <= j ->
       rdram (memory k1) j = rdram (memory k) j) /\
    writes (memory k1) = writes (memory k) + Z.of_nat (length program).
Proof.
  induction program as [| byte rest IH]; intros i k Hi Hend.
  - exists k. split; [reflexivity |]. split; [intros n Hn; cbn in Hn; lia |].
    split; [auto | cbn; lia].
  - cbn [length] in Hend. cbn [load_bytes]; unmonad. unfold on_memory; unmonad.
    assert (Hin : RDRAM_START <= i <= RDRAM_END)
      by (unfold RDRAM_END, RDRAM_START, RDRAM_SIZE in *; lia).
    rewrite (write_byte_rdram i byte (memory k) _ (map_address_rdram i (memory k) Hin)).
    destruct (IH (i + 1)
                (set_memory
                   (set_rdram (Numpy.store (rdram (memory k)) (i - RDRAM_START)
                                 (Z.land byte 0xFF)) (add_writes 1 (memory k))) k))
      as (k1 & Hl & Hcells & Hrest & Hw); [lia | lia |].
    exists k1. split; [exact Hl |]. split; [| split].
    + intros [| n] Hn.
      * rewrite Hrest by lia. cbn. unfold Numpy.store, RDRAM_START.
        replace (i + 0 =? i - 0) with true by (symmetry; apply Z.eqb_eq; lia).
        apply land_255_mod.
      * replace (i + Z.of_nat (S n)) with (i + 1 + Z.of_nat n) by lia.
        cbn [nth]. apply Hcells. cbn [length] in Hn. lia.
    + intros j Hj. rewrite Hrest by (cbn [length] in Hj; lia).
      cbn. unfold Numpy.store, RDRAM_START.
      destruct (Z.eqb_spec j (i - 0)); [cbn [length] in Hj; lia | reflexivity].
    + rewrite Hw. cbn. lia.
Qed.

End EMAUI_Frame.

(** X1: an address outside both regions is refused by all four accessors
    with the [MemoryError] of an invalid address, and the memory, its two
    counters included, is as before. *)
Theorem unmapped_address_refused store_literal (address value : Z) (m : EMAUI.Memory) :
  (address < EMAUI.RDRAM_START \/ EMAUI.RDRAM_END < address) ->
  (address < EMAUI.PIF_ROM_START \/ EMAUI.PIF_ROM_END < address) ->
  EMAUI.read_byte address m = Raise (MemoryError_invalid address) m /\
  EMAUI.write_byte address value m = Raise (MemoryError_invalid address) m /\
  EMAUI.read_word address m = Raise (MemoryError_invalid address) m /\
  EMAUI.write_word store_literal address value m = Raise (MemoryError_invalid address) m.
Proof.
  intros H1 H2.
  pose proof (EMAUI_Memory.map_address_unmapped address m H1 H2) as Hm.
  unfold EMAUI.read_byte, EMAUI.write_byte, EMAUI.read_word, EMAUI.write_word; unmonad.
  rewrite Hm. auto.
Qed.

(** The first address past RDRAM. *)
Lemma unmapped_address_refused_witness :
  EMAUI.read_byte 0x800000 EMAUI.Memory_init =
    Raise (MemoryError_invalid 0x800000) EMAUI.Memory_init /\
  EMAUI.write_byte 0x800000 1 EMAUI.Memory_init =
    Raise (MemoryError_invalid 0x800000) EMAUI.Memory_init.
Proof.
  destruct (unmapped_address_refused Examples.keep_literal 0x800000 1 EMAUI.Memory_init)
    as (Hr & Hw & _).
  - right. reflexivity.
  - left. reflexivity.
  - split; [exact Hr | exact Hw].
Defined.

(** X2: a byte write to RDRAM changes the cell of its address and no
    other: a byte read at any other address returns what it returned
    before, the PIF ROM and the read counter are as before, and the write
    counter is one more. *)
Theorem write_byte_changes_one_cell (address value other : Z) (m : EMAUI.Memory) :
  EMAUI.RDRAM_START <= address <= EMAUI.RDRAM_END -> other <> address ->
  exists m1,
    EMAUI.write_byte address value m = Ok tt m1 /\
    returned (EMAUI.read_byte other m1) = returned (EMAUI.read_byte other m) /\
    EMAUI.pif_rom m1 = EMAUI.pif_rom m /\ EMAUI.reads m1 = EMAUI.reads m /\
    EMAUI.writes m1 = EMAUI.writes m + 1.
Proof.
  intros Ha Hne.
  pose proof (EMAUI_Memory.map_address_rdram address m Ha) as Hmap.
  eexists. split; [exact (EMAUI_Memory.write_byte_rdram address value m _ Hmap) |].
  split; [| cbn; auto].
  destruct (EMAUI_Frame.map_address_cases other m) as [(r & offset & Hm) | Hm].
  - rewrite (EMAUI_Memory.read_byte_mapped other m r offset Hm).
    rewrite (EMAUI_Memory.read_byte_mapped other _ r offset
               (EMAUI_Memory.map_address_any other m _ _ Hm)).
    cbn [returned]. f_equal.
    destruct r; cbn [EMAUI.region_array EMAUI.set_rdram EMAUI.rdram EMAUI.pif_rom
                     EMAUI.add_writes]; [| reflexivity].
    unfold Numpy.store.
    destruct (EMAUI_Memory.map_address_inv other m _ _ Hm) as [_ Ho].
    destruct (Z.eqb_spec offset (address - EMAUI.RDRAM_START)); [lia | reflexivity].
  - unfold EMAUI.read_byte; unmonad.
    rewrite Hm, (EMAUI_Frame.map_address_refused_any other m _ Hm). reflexivity.
Qed.

Lemma write_byte_changes_one_cell_witness :
  exists m1,
    EMAUI.write_byte 5 0xAB EMAUI.Memory_init = Ok tt m1 /\
    returned (EMAUI.read_byte 6 m1) = returned (EMAUI.read_byte 6 EMAUI.Memory_init).
Proof.
  destruct (write_byte_changes_one_cell 5 0xAB 6 EMAUI.Memory_init)
    as (m1 & Hw & Hr & _).
  - vm_compute. split; intros H; discriminate H.
  - intros H; discriminate H.
  - exists m1. split; [exact Hw | exact Hr].
Defined.

(** X3: reading never writes. Whatever its outcome, a byte or word read
    leaves both arrays and the write counter unchanged; the read counter
    grows by 1, or by 4, exactly when the address resolves to a region,
    also when the word read then fails. *)
Theorem reads_leave_the_cells (address : Z) (m : EMAUI.Memory) :
  let counted (n : Z) :=
    match raised (EMAUI.map_address address m) with
    | None => EMAUI.reads m + n
    | Some _ => EMAUI.reads m
    end in
  let m1 := final_state (EMAUI.read_byte address m) in
  let m4 := final_state (EMAUI.read_word address m) in
  EMAUI.rdram m1 = EMAUI.rdram m /\ EMAUI.pif_rom m1 = EMAUI.pif_rom m /\
  EMAUI.writes m1 = EMAUI.writes m /\ EMAUI.reads m1 = counted 1 /\
  EMAUI.rdram m4 = EMAUI.rdram m /\ EMAUI.pif_rom m4 = EMAUI.pif_rom m /\
  EMAUI.writes m4 = EMAUI.writes m /\ EMAUI.reads m4 = counted 4.
Proof.
  cbn zeta.
  unfold EMAUI.read_byte, EMAUI.read_word, EMAUI.unpack_slice; unmonad.
  destruct (EMAUI_Frame.map_address_cases address m) as [(r & offset & ->) | ->];
    [| cbn; auto 10].
  destruct r; cbn [raised final_state];
    repeat match goal with
           | |- context [Struct.unpack_I ?b] => destruct (Struct.unpack_I b)
           end; cbn; auto 10.
Qed.

(** X4: no write reaches the PIF ROM. A byte write, a word write and the
    loading of a program, whatever their arguments and their outcome,
    leave every cell of the PIF ROM as it was. *)
Theorem pif_rom_is_never_written store_literal (address value : Z) (m : EMAUI.Memory)
    (program : list Z) (k : EMAUI.Kernel) :
  EMAUI.pif_rom (final_state (EMAUI.write_byte address value m)) = EMAUI.pif_rom m /\
  EMAUI.pif_rom (final_state (EMAUI.write_word store_literal address value m))
    = EMAUI.pif_rom m /\
  EMAUI.pif_rom (EMAUI.memory (final_state (EMAUI.load_program program k)))
    = EMAUI.pif_rom (EMAUI.memory k).
Proof.
  split; [apply EMAUI_Frame.write_byte_pif |]. split.
  - unfold EMAUI.write_word; unmonad.
    destruct (EMAUI_Frame.map_address_cases address m) as [(r & offset & ->) | ->];
      [| reflexivity].
    destruct r; [| reflexivity].
    destruct (Struct.pack_I value); [| reflexivity].
    now destruct (Numpy.store_slice_bytes _ _ _ _ _ _).
  - unfold EMAUI.load_program; unmonad.
    pose proof (EMAUI_Frame.load_bytes_frame program 0 k) as H. cbn zeta in H.
    destruct (EMAUI.load_bytes 0 program k); cbn [final_state] in *; now rewrite <- (proj1 H).
Qed.

(** X5: a program of at most 8 MB is loaded whole: [load_program] succeeds,
    cell i of RDRAM holds element i of the program modulo 256 (one byte
    per element, so a list of instruction words is cut down to their low
    bytes), the cells past the program are as before, the write counter
    grew by the program's length and the program counter is 0. *)
Theorem load_program_stores_low_bytes (program : list Z) (k : EMAUI.Kernel) :
  Z.of_nat (length program) <= EMAUI.RDRAM_SIZE ->
  exists k0,
    EMAUI.load_program program k = Ok tt k0 /\
    EMAUI.pc k0 = 0 /\
    (forall n, (n < length program)%nat ->
       EMAUI.rdram (EMAUI.memory k0) (Z.of_nat n) = nth n program 0 mod 256) /\
    (forall j, Z.of_nat (length program) <= j ->
       EMAUI.rdram (EMAUI.memory k0) j = EMAUI.rdram (EMAUI.memory k) j) /\
    EMAUI.writes (EMAUI.memory k0) =
      EMAUI.writes (EMAUI.memory k) + Z.of_nat (length program).
Proof.
  intros Hlen.
  destruct (EMAUI_Frame.load_bytes_cells program 0 k) as (k1 & Hl & Hcells & Hrest & Hw);
    [lia | lia |].
  exists (EMAUI.set_pc 0 k1). unfold EMAUI.load_program; unmonad. rewrite Hl.
  split; [reflexivity |]. split; [reflexivity |]. cbn. repeat split.
  - intros n Hn. now apply (Hcells n).
  - intros j Hj. apply Hrest. lia.
  - exact Hw.
Qed.

(** The first instruction word of the demonstration program, loaded as
    the source loads it: its low byte alone reaches the memory. *)
Lemma load_program_stores_low_bytes_witness :
  exists k0,
    EMAUI.load_program [0x3C010001] Examples.emaui_fresh = Ok tt k0 /\
    EMAUI.rdram (EMAUI.memory k0) 0 = 1.
Proof.
  destruct (load_program_stores_low_bytes [0x3C010001] Examples.emaui_fresh)
    as (k0 & Hl & _ & Hcells & _).
  - vm_compute. intros H; discriminate H.
  - exists k0. split; [exact Hl |]. apply (Hcells 0%nat). cbn. lia.
Defined.

(** ** EMAUI0.2: the kernel *)

Module EMAUI_Invariants.
Import EMAUI EMAUI_Memory EMAUI_Words EMAUI_Kernel EMAUI_Run EMAUI_Frame.

Section Releases.

Context {numpy : numpy_release}.

(** A word read changes the read counter and nothing else. *)
Lemma read_word_cells (address : Z) (m : Memory) :
  let m4 := final_state (read_word address m) in
  rdram m4 = rdram m /\ pif_rom m4 = pif_rom m /\ writes m4 = writes m.
Proof.
  cbn zeta. unfold read_word, unpack_slice; unmonad.
  destruct (map_address_cases address m) as [(r & offset & ->) | ->]; [| cbn; auto].
  destruct r; cbn [final_state];
    repeat match goal with
           | |- context [Struct.unpack_I ?b] => destruct (Struct.unpack_I b)
           end; cbn; auto.
Qed.

(** Calling a closure touches neither the memory nor the counters of the
    kernel. *)
Lemma call_frame (f : func) (k : Kernel) :
  let k' := final_state (call f k) in
  memory k' = memory k /\ pc k' = pc k /\ cycles k' = cycles k /\ dialogs k' = dialogs k.
Proof.
  cbn zeta. destruct f; cbn [call]; unfold on_graphics; unmonad;
    try (cbn [final_state memory pc cycles dialogs set_register set_running]; now auto).
  - destruct numpy; [cbn; now auto |]. destruct (_ && _); cbn; auto.
  - destruct (draw_rectangle _ _ _ _ _ _); cbn; auto.
Qed.

Lemma call_decoded_frame (instruction : Z) (k : Kernel) :
  let k' := final_state (call_decoded instruction k) in
  memory k' = memory k /\ pc k' = pc k /\ cycles k' = cycles k /\ dialogs k' = dialogs k.
Proof.
  unfold call_decoded. destruct (decode_instruction instruction); [apply call_frame |].
  cbn. auto.
Qed.

Lemma cycle_state (k : Kernel) :
  final_state (cycle k) =
    match read_word (pc k) (memory k) with
    | Ok w m =>
        final_state
          (call_decoded w (set_cycles (cycles k + 1) (set_pc (pc k + 4) (set_memory m k))))
    | Raise e m => set_memory m k
    end.
Proof.
  unfold cycle; unmonad. rewrite fetch_instruction_eq.
  now destruct (read_word (pc k) (memory k)).
Qed.

(** [after], one turn at a time. *)
Lemma after_S (n : nat) (k : Kernel) :
  after (S n) k = if running k then
                    match cycle k with
                    | Ok _ k' => after n k'
                    | Raise _ k' => k'
                    end
                  else k.
Proof. reflexivity. Qed.

(** A property that every turn keeps holds in every state the loop reaches. *)
Lemma after_invariant (P : Kernel -> Prop) :
  (forall k, P k -> P (final_state (cycle k))) ->
  forall n k, P k -> P (after n k).
Proof.
  intros Hstep. induction n as [| n IH]; intros k Hk; [exact Hk |].
  rewrite after_S. destruct (running k); [| exact Hk].
  specialize (Hstep k Hk). destruct (cycle k); [apply IH |]; exact Hstep.
Qed.

Lemma cycle_memory_cells (k : Kernel) :
  let k' := final_state (cycle k) in
  rdram (memory k') = rdram (memory k) /\ pif_rom (memory k') = pif_rom (memory k) /\
  writes (memory k') = writes (memory k).
Proof.
  cbn zeta. rewrite cycle_state.
  pose proof (read_word_cells (pc k) (memory k)) as Hr. cbn zeta in Hr.
  destruct (read_word (pc k) (memory k)) as [w m | e m]; cbn [final_state] in Hr.
  - destruct (call_decoded_frame w
                (set_cycles (cycles k + 1) (set_pc (pc k + 4) (set_memory m k))))
      as (-> & _). exact Hr.
  - exact Hr.
Qed.

Lemma cycle_pc_cycles (k : Kernel) :
  let k' := final_state (cycle k) in
  pc k' - pc k = 4 * (cycles k' - cycles k).
Proof.
  cbn zeta. rewrite cycle_state.
  destruct (read_word (pc k) (memory k)) as [w m | e m];
    [| cbn [pc cycles set_memory]; lia].
  destruct (call_decoded_frame w
              (set_cycles (cycles k + 1) (set_pc (pc k + 4) (set_memory m k))))
    as (_ & -> & -> & _). cbn [pc cycles set_memory set_pc set_cycles]. lia.
Qed.

(** One turn of [run] at a word that calls for no register or graphics work. *)
Lemma run_one_turn (k : Kernel) (w : Z) (m : Memory) :
  running k = true -> read_word (pc k) (memory k) = Ok w m ->
  cycle k = call_decoded w (set_cycles (cycles k + 1) (set_pc (pc k + 4) (set_memory m k))).
Proof.
  intros _ Hr. unfold cycle; unmonad. rewrite fetch_instruction_eq, Hr. reflexivity.
Qed.

Lemma decode_halt (instruction : Z) :
  Z.shiftr instruction 26 = 0x3F -> decode_instruction instruction = Some func_halt.
Proof. intros H. unfold decode_instruction. now rewrite H. Qed.

Lemma decode_lui (instruction : Z) :
  Z.shiftr instruction 26 = 0x0F ->
  decode_instruction instruction =
    Some (func_lui (Z.land (Z.shiftr instruction 16) 0x1F) (Z.land instruction 0xFFFF)).
Proof. intros H. unfold decode_instruction. now rewrite H. Qed.

Lemma decode_unknown (instruction : Z) :
  Z.shiftr instruction 26 <> 0 -> Z.shiftr instruction 26 <> 0x08 ->
  Z.shiftr instruction 26 <> 0x0F -> Z.shiftr instruction 26 <> 0x2D ->
  Z.shiftr instruction 26 <> 0x2E -> Z.shiftr instruction 26 <> 0x3F ->
  decode_instruction instruction = Some (func_unknown (Z.shiftr instruction 26)).
Proof.
  intros H1 H2 H3 H4 H5 H6. unfold decode_instruction.
  repeat match goal with
         | |- context [?a =? ?b] => destruct (Z.eqb_spec a b); [contradiction |]
         end.
  reflexivity.
Qed.

End Releases.

End EMAUI_Invariants.

(** X6: from NumPy 2 on, ADDI refuses an immediate whose bit 15 is set.
    The closure adds the sign-extended immediate, a negative Python
    integer, to a [uint32] register, which NumPy 2 does not convert: the
    call raises [OverflowError] and changes nothing. A turn of [run] at
    such a word ends the run with the kernel stopped, the [OverflowError]
    the one new entry of the error dialogs, the registers unchanged and
    the program counter past the word. *)
Theorem add_immediate_overflows (k : EMAUI.Kernel) (w : Z) (m : EMAUI.Memory) :
  EMAUI.running k = true ->
  EMAUI.read_word (EMAUI.pc k) (EMAUI.memory k) = Ok w m ->
  Z.shiftr w 26 = 0x08 -> 0x8000 <= Z.land w 0xFFFF ->
  (forall k1 : EMAUI.Kernel,
     EMAUI.call_decoded (numpy := NumPy_2) w k1 = Raise OverflowError k1) /\
  exists k',
    EMAUI.run (numpy := NumPy_2) 1 k = Some (Ok tt k') /\
    EMAUI.running k' = false /\
    EMAUI.dialogs k' = EMAUI.dialogs k ++ [OverflowError] /\
    EMAUI.registers k' = EMAUI.registers k /\
    EMAUI.pc k' = EMAUI.pc k + 4.
Proof.
  intros Hrun Hr H0 Himm.
  assert (Hcall : forall k1 : EMAUI.Kernel,
            EMAUI.call_decoded (numpy := NumPy_2) w k1 = Raise OverflowError k1).
  { intros k1. unfold EMAUI.call_decoded. rewrite (EMAUI_Kernel.decode_addi w H0).
    apply EMAUI_Kernel.call_addi_overflow; [reflexivity |].
    pose proof (EMAUI_Kernel.land_ffff_range w) as Hi.
    rewrite EMAUI_Kernel.sign_extend16_high by lia. lia. }
  split; [exact Hcall |].
  unfold EMAUI.run. cbn [EMAUI.run_loop].
  rewrite Hrun, (EMAUI_Invariants.run_one_turn k w m Hrun Hr), Hcall.
  eexists. split; [reflexivity |]. cbn. auto.
Qed.

(** addi r2, r1, 0xFFFF at address 0, with reg[1] = 5. *)
Lemma add_immediate_overflows_witness :
  exists k',
    EMAUI.run (numpy := NumPy_2) 1
      (final_state
         (EMAUI.load_program [0x20; 0x22; 0xFF; 0xFF] (Examples.emaui_registers 5 0 0 0 0)))
      = Some (Ok tt k') /\
    EMAUI.dialogs k' = [OverflowError] /\
    EMAUI.registers k' 1 = 5 /\ EMAUI.registers k' 2 = 0.
Proof.
  destruct (add_immediate_overflows
              (final_state
                 (EMAUI.load_program [0x20; 0x22; 0xFF; 0xFF]
                    (Examples.emaui_registers 5 0 0 0 0)))
              0x2022FFFF
              (EMAUI.add_reads 4
                 (EMAUI.memory
                    (final_state
                       (EMAUI.load_program [0x20; 0x22; 0xFF; 0xFF]
                          (Examples.emaui_registers 5 0 0 0 0))))))
    as (_ & k' & Hrun & _ & Hd & Hreg & _).
  - vm_compute. reflexivity.
  - vm_compute. reflexivity.
  - vm_compute. reflexivity.
  - vm_compute. intros H; discriminate H.
  - exists k'. split; [exact Hrun |]. split; [exact Hd |].
    rewrite Hreg. split; reflexivity.
Defined.

(** X7: the program counter and the cycle counter move together: over any
    number of turns the program counter has grown by 4 times the growth
    of the cycle counter (there is no jump in this machine, and a fetch
    that fails advances neither). *)
Theorem pc_follows_cycles (numpy : numpy_release) (n : nat) (k : EMAUI.Kernel) :
  EMAUI.pc (EMAUI.after n k) - EMAUI.pc k
  = 4 * (EMAUI.cycles (EMAUI.after n k) - EMAUI.cycles k).
Proof.
  revert k. induction n as [| n IH]; intros k; [cbn [EMAUI.after]; lia |].
  rewrite EMAUI_Invariants.after_S. destruct (EMAUI.running k); [| lia].
  pose proof (EMAUI_Invariants.cycle_pc_cycles k) as Hc. cbn zeta in Hc.
  destruct (EMAUI.cycle k) as [u k' | e k']; cbn [final_state] in Hc.
  - specialize (IH k'). lia.
  - exact Hc.
Qed.

(** X8: running a program never writes to memory. Over any number of
    turns the cells of RDRAM and of the PIF ROM and the write counter are
    as they were: this machine has no store instruction. *)
Theorem run_never_writes_memory (numpy : numpy_release) (n : nat) (k : EMAUI.Kernel) :
  EMAUI.rdram (EMAUI.memory (EMAUI.after n k)) = EMAUI.rdram (EMAUI.memory k) /\
  EMAUI.pif_rom (EMAUI.memory (EMAUI.after n k)) = EMAUI.pif_rom (EMAUI.memory k) /\
  EMAUI.writes (EMAUI.memory (EMAUI.after n k)) = EMAUI.writes (EMAUI.memory k).
Proof.
  revert k. induction n as [| n IH]; intros k; [cbn [EMAUI.after]; auto |].
  rewrite EMAUI_Invariants.after_S. destruct (EMAUI.running k); [| auto].
  pose proof (EMAUI_Invariants.cycle_memory_cells k) as (H1 & H2 & H3).
  destruct (EMAUI.cycle k) as [u k' | e k']; cbn [final_state] in *.
  - destruct (IH k') as (I1 & I2 & I3). rewrite I1, I2, I3. auto.
  - auto.
Qed.

(** X9: a word of opcode 0x0F sets reg[rt] to the 16-bit immediate times
    65536, exactly, and changes no other register; followed by a word of
    opcode 0x08 on the same register it builds a 32-bit constant:
    reg[rt] = (hi * 65536 + sign_extend16(lo)) mod 2^32, for every low
    half below 0x8000, and for every low half when the sum is taken by a
    numpy up to 1.x. *)
Theorem load_upper_immediate (numpy : numpy_release) (lui addi : Z) (k : EMAUI.Kernel) :
  let rt := Z.land (Z.shiftr lui 16) 0x1F in
  let hi := Z.land lui 0xFFFF in
  let lo := Z.land addi 0xFFFF in
  Z.shiftr lui 26 = 0x0F ->
  Z.shiftr addi 26 = 0x08 ->
  Z.land (Z.shiftr addi 21) 0x1F = rt -> Z.land (Z.shiftr addi 16) 0x1F = rt ->
  numpy = NumPy_1 \/ lo < 0x8000 ->
  exists k1 k2,
    EMAUI.call_decoded lui k = Ok tt k1 /\
    EMAUI.registers k1 rt = hi * 65536 /\
    (forall j, j <> rt -> EMAUI.registers k1 j = EMAUI.registers k j) /\
    EMAUI.call_decoded addi k1 = Ok tt k2 /\
    EMAUI.registers k2 rt = (hi * 65536 + EMAUI.sign_extend16 lo) mod 2 ^ 32 /\
    (forall j, j <> rt -> EMAUI.registers k2 j = EMAUI.registers k j).
Proof.
  intros rt hi lo H1 H2 Hrs Hrt Hrel.
  exists (EMAUI.set_register rt (Z.shiftl hi 16) k).
  assert (Hhi : EMAUI.registers (EMAUI.set_register rt (Z.shiftl hi 16) k) rt = hi * 65536).
  { rewrite EMAUI_Kernel.set_register_same. unfold uint32.
    rewrite Z.shiftl_mul_pow2 by lia.
    pose proof (EMAUI_Kernel.land_ffff_range lui) as Hr. fold hi in Hr.
    change (2 ^ 16) with 65536 in *. apply Z.mod_small. lia. }
  assert (Himm : numpy = NumPy_1 \/ 0 <= EMAUI.sign_extend16 lo < 2 ^ 32).
  { destruct Hrel as [Hrel | Hrel]; [now left | right].
    pose proof (EMAUI_Kernel.land_ffff_range addi) as Hi. fold lo in Hi.
    rewrite EMAUI_Kernel.sign_extend16_low by lia. lia. }
  destruct (EMAUI_Kernel.call_addi rt rt (EMAUI.sign_extend16 lo)
              (EMAUI.set_register rt (Z.shiftl hi 16) k) Himm) as (k2 & Hc & Hr & Ho & _).
  exists k2. split.
  { unfold EMAUI.call_decoded. rewrite (EMAUI_Invariants.decode_lui lui H1). reflexivity. }
  split; [exact Hhi |]. split.
  { intros j Hj. now apply EMAUI_Kernel.set_register_other. }
  split.
  { unfold EMAUI.call_decoded. rewrite (EMAUI_Kernel.decode_addi addi H2), Hrs, Hrt.
    exact Hc. }
  split; [now rewrite Hr, Hhi |].
  intros j Hj. rewrite (Ho j Hj). now apply EMAUI_Kernel.set_register_other.
Qed.

(** lui r1, 0x1234 then addi r1, r1, 0x5678, under NumPy 2. *)
Lemma load_upper_immediate_witness :
  exists k1 k2,
    EMAUI.call_decoded (numpy := NumPy_2) 0x3C011234 Examples.emaui_fresh = Ok tt k1 /\
    EMAUI.call_decoded (numpy := NumPy_2) 0x20215678 k1 = Ok tt k2 /\
    EMAUI.registers k2 1 = 0x12345678.
Proof.
  destruct (load_upper_immediate NumPy_2 0x3C011234 0x20215678 Examples.emaui_fresh
              eq_refl eq_refl eq_refl eq_refl)
    as (k1 & k2 & H1 & _ & _ & H2 & Hr & _).
  - right. reflexivity.
  - exists k1, k2. split; [exact H1 |]. split; [exact H2 | exact Hr].
Defined.

(** X10: a turn at a word whose opcode is none of 0, 0x08, 0x0F, 0x2D,
    0x2E, 0x3F ends the run: [run] returns normally, the kernel is
    stopped, the [ValueError] naming the opcode is the one new entry of
    the error dialogs, the registers are unchanged and the program
    counter has already passed the word. *)
Theorem unknown_opcode_stops_the_run (numpy : numpy_release) (k : EMAUI.Kernel) (w : Z)
    (m : EMAUI.Memory) :
  EMAUI.running k = true ->
  EMAUI.read_word (EMAUI.pc k) (EMAUI.memory k) = Ok w m ->
  Z.shiftr w 26 <> 0 -> Z.shiftr w 26 <> 0x08 -> Z.shiftr w 26 <> 0x0F ->
  Z.shiftr w 26 <> 0x2D -> Z.shiftr w 26 <> 0x2E -> Z.shiftr w 26 <> 0x3F ->
  exists k',
    EMAUI.run 1 k = Some (Ok tt k') /\
    EMAUI.running k' = false /\
    EMAUI.dialogs k' = EMAUI.dialogs k ++ [ValueError_unknown_opcode (Z.shiftr w 26)] /\
    EMAUI.registers k' = EMAUI.registers k /\
    EMAUI.pc k' = EMAUI.pc k + 4.
Proof.
  intros Hrun Hr H1 H2 H3 H4 H5 H6. unfold EMAUI.run. cbn [EMAUI.run_loop].
  rewrite Hrun, (EMAUI_Invariants.run_one_turn k w m Hrun Hr).
  unfold EMAUI.call_decoded.
  rewrite (EMAUI_Invariants.decode_unknown w H1 H2 H3 H4 H5 H6).
  cbn [EMAUI.call]. unfold raise. eexists. split; [reflexivity |]. cbn. auto.
Qed.

(** The word 0x14000000 (opcode 5) at address 0. *)
Lemma unknown_opcode_stops_the_run_witness :
  exists k',
    EMAUI.run (numpy := NumPy_2) 1
      (final_state (EMAUI.load_program [0x14; 0; 0; 0] Examples.emaui_fresh))
      = Some (Ok tt k') /\
    EMAUI.dialogs k' = [ValueError_unknown_opcode 5].
Proof.
  destruct (unknown_opcode_stops_the_run NumPy_2
              (final_state (EMAUI.load_program [0x14; 0; 0; 0] Examples.emaui_fresh))
              0x14000000
              (EMAUI.add_reads 4
                 (EMAUI.memory
                    (final_state
                       (EMAUI.load_program [0x14; 0; 0; 0] Examples.emaui_fresh)))))
    as (k' & Hrun & _ & Hd & _);
    try (vm_compute; first [reflexivity | intros H; discriminate H]).
  exists k'. split; [exact Hrun | exact Hd].
Defined.

(** X11: a turn at a word of opcode 0x3F halts: [run] returns normally
    after that one turn with the kernel stopped, no error dialog added,
    the registers unchanged and the program counter past the word. *)
Theorem halt_stops_the_run (numpy : numpy_release) (k : EMAUI.Kernel) (w : Z)
    (m : EMAUI.Memory) :
  EMAUI.running k = true ->
  EMAUI.read_word (EMAUI.pc k) (EMAUI.memory k) = Ok w m ->
  Z.shiftr w 26 = 0x3F ->
  exists k',
    EMAUI.run 2 k = Some (Ok tt k') /\
    EMAUI.running k' = false /\ EMAUI.dialogs k' = EMAUI.dialogs k /\
    EMAUI.registers k' = EMAUI.registers k /\ EMAUI.pc k' = EMAUI.pc k + 4 /\
    EMAUI.cycles k' = EMAUI.cycles k + 1.
Proof.
  intros Hrun Hr H. unfold EMAUI.run. cbn [EMAUI.run_loop].
  rewrite Hrun, (EMAUI_Invariants.run_one_turn k w m Hrun Hr).
  unfold EMAUI.call_decoded. rewrite (EMAUI_Invariants.decode_halt w H).
  cbn [EMAUI.call]. unfold modify. cbn [EMAUI.running EMAUI.set_running].
  eexists. split; [reflexivity |]. cbn. auto 10.
Qed.

Lemma halt_stops_the_run_witness :
  exists k',
    EMAUI.run (numpy := NumPy_2) 2
      (final_state (EMAUI.load_program [0xFC; 0; 0; 0] Examples.emaui_fresh))
      = Some (Ok tt k') /\
    EMAUI.running k' = false /\ EMAUI.dialogs k' = [].
Proof.
  destruct (halt_stops_the_run NumPy_2
              (final_state (EMAUI.load_program [0xFC; 0; 0; 0] Examples.emaui_fresh))
              0xFC000000
              (EMAUI.add_reads 4
                 (EMAUI.memory
                    (final_state
                       (EMAUI.load_program [0xFC; 0; 0; 0] Examples.emaui_fresh)))))
    as (k' & Hrun & Hs & Hd & _);
    try (vm_compute; reflexivity).
  exists k'. split; [exact Hrun |]. split; [exact Hs | exact Hd].
Defined.

(** X12: loading a program does not restart a stopped kernel.
    [load_program] resets the program counter only: the running flag,
    the registers and the cycle counter are as before, so once a run has
    ended, [run] after loading another program returns at once without
    executing anything. *)
Theorem load_program_keeps_the_kernel_stopped (numpy : numpy_release)
    (program : list Z) (k : EMAUI.Kernel) (fuel : nat) :
  let k0 := final_state (EMAUI.load_program program k) in
  EMAUI.running k0 = EMAUI.running k /\
  EMAUI.registers k0 = EMAUI.registers k /\
  EMAUI.cycles k0 = EMAUI.cycles k /\
  (EMAUI.running k = false -> EMAUI.run fuel k0 = Some (Ok tt k0)).
Proof.
  cbn zeta.
  assert (H : EMAUI.running (final_state (EMAUI.load_program program k)) = EMAUI.running k /\
              EMAUI.registers (final_state (EMAUI.load_program program k))
                = EMAUI.registers k /\
              EMAUI.cycles (final_state (EMAUI.load_program program k)) = EMAUI.cycles k).
  { unfold EMAUI.load_program; unmonad.
    pose proof (EMAUI_Frame.load_bytes_frame program 0 k) as Hf. cbn zeta in Hf.
    destruct Hf as (_ & _ & _ & _ & Hreg & Hrun & Hcyc & _).
    destruct (EMAUI.load_bytes 0 program k); cbn [final_state] in *; cbn; auto. }
  destruct H as (H1 & H2 & H3). repeat split; try assumption.
  intros Hstop. apply EMAUI_Run.run_stopped. now rewrite H1.
Qed.

(** X13: [render] reads a cell as RGB555 and ignores its bit 15: the
    pixel of a cell holding c is ((c / 1024) mod 32 * 8, (c / 32) mod 32
    * 8, (c mod 32) * 8), each channel a multiple of 8 that is at most
    248, so the cast to [uint8] loses nothing; the framebuffer itself is
    unchanged. *)
Theorem render_rgb555 (g : EMAUI.Graphics) (cy cx : Z) :
  exists g',
    EMAUI.render g = Ok tt g' /\
    EMAUI.framebuffer g' = EMAUI.framebuffer g /\
    let c := EMAUI.framebuffer g cy cx in
    EMAUI.image g' cy cx =
      ((c / 1024) mod 32 * 8, (c / 32) mod 32 * 8, c mod 32 * 8) /\
    0 <= (c / 1024) mod 32 * 8 <= 248 /\ 0 <= (c / 32) mod 32 * 8 <= 248 /\
    0 <= c mod 32 * 8 <= 248.
Proof.
  eexists. split; [reflexivity |]. split; [reflexivity |]. cbn zeta.
  set (c := EMAUI.framebuffer g cy cx).
  pose proof (Z.mod_pos_bound (c / 1024) 32 ltac:(lia)) as Hr.
  pose proof (Z.mod_pos_bound (c / 32) 32 ltac:(lia)) as Hg.
  pose proof (Z.mod_pos_bound c 32 ltac:(lia)) as Hb.
  split; [| lia].
  cbn [EMAUI.image]. fold c. unfold uint8.
  change 0x1F with (Z.ones 5). rewrite !Z.land_ones, !Z.shiftr_div_pow2 by lia.
  change (2 ^ 5) with 32. change (2 ^ 10) with 1024. change (2 ^ 8) with 256.
  rewrite (Z.mod_small ((c / 1024) mod 32 * 8) 256),
    (Z.mod_small ((c / 32) mod 32 * 8) 256), (Z.mod_small (c mod 32 * 8) 256) by lia.
  reflexivity.
Qed.

(** ** FlamesVM64: the memory *)

Module Flames_Frame.
Import FlamesVM64 Flames_Memory.

Lemma write_byte_inside (address value : Z) (m : Memory) :
  well_sized m -> 0 <= address < size m ->
  write_byte address value m =
    Ok tt (set_bytes (Bytearray.store (memory m) (Z.to_nat address) (Z.land value 0xFF)) m).
Proof.
  intros Hwf Ha. unfold well_sized in Hwf. unfold write_byte; unmonad.
  settle_cmp. cbn [andb].
  destruct (Nat.ltb_spec (Z.to_nat address) (length (memory m))); [reflexivity | lia].
Qed.

Lemma set_bytes_well_sized (b : list Z) (m : Memory) :
  length b = length (memory m) -> well_sized m -> well_sized (set_bytes b m).
Proof. unfold well_sized. cbn. intros ->. auto. Qed.

(** A byte read, by the list of bytes. *)
Lemma read_byte_returned (address : Z) (m : Memory) :
  well_sized m ->
  returned (read_byte address m) =
    if (0 <=? address) && (address <? size m)
    then nth_error (memory m) (Z.to_nat address) else None.
Proof.
  intros Hwf. unfold read_byte; unmonad.
  destruct ((0 <=? address) && (address <? size m)) eqn:E; [| reflexivity].
  now destruct (nth_error (memory m) (Z.to_nat address)).
Qed.

(** The bytes of a slice store that lie outside the slice. *)
Lemma nth_error_store_slice_outside (b : list Z) (a : Z) (bytes : list Z) (i : nat) :
  0 <= a -> a + 4 <= Z.of_nat (length b) -> length bytes = 4%nat ->
  (i < Z.to_nat a)%nat \/ (Z.to_nat a + 4 <= i)%nat ->
  nth_error (Bytearray.store_slice b a (a + 4) bytes) i = nth_error b i.
Proof.
  intros Ha Hend Hl Hi. unfold Bytearray.store_slice.
  rewrite !clamp_inside by lia.
  replace (Z.max a (a + 4)) with (a + 4) by lia.
  destruct Hi as [Hlt | Hge].
  - rewrite nth_error_app1 by (rewrite length_firstn; lia).
    now rewrite nth_error_firstn, (proj2 (Nat.ltb_lt i (Z.to_nat a)) Hlt).
  - rewrite nth_error_app2 by (rewrite length_firstn; lia).
    rewrite length_firstn.
    rewrite nth_error_app2 by lia.
    rewrite nth_error_skipn. f_equal. lia.
Qed.

End Flames_Frame.

(** X14: a word write at an address of -3 to -1 passes the bounds check of
    FlamesVM64 and, the slice being empty, inserts its four bytes before
    the last bytes of the memory: the bytearray is four bytes longer than
    the size the memory keeps checking against. A word read there stops
    in [struct.unpack]. *)
Theorem negative_address_grows_the_memory (address value : Z) (m : FlamesVM64.Memory) :
  FlamesVM64.well_sized m -> 4 <= FlamesVM64.size m ->
  -3 <= address < 0 -> 0 <= value < 2 ^ 32 ->
  FlamesVM64.read_word address m = Raise StructError m /\
  exists m1,
    FlamesVM64.write_word address value m = Ok tt m1 /\
    FlamesVM64.size m1 = FlamesVM64.size m /\
    Z.of_nat (length (FlamesVM64.memory m1)) = FlamesVM64.size m + 4 /\
    FlamesVM64.memory m1 =
      firstn (Z.to_nat (FlamesVM64.size m + address)) (FlamesVM64.memory m)
      ++ [Z.land (Z.shiftr value 24) 255; Z.land (Z.shiftr value 16) 255;
          Z.land (Z.shiftr value 8) 255; Z.land value 255]
      ++ skipn (Z.to_nat (FlamesVM64.size m + address)) (FlamesVM64.memory m).
Proof.
  intros Hwf Hsize Ha Hv. unfold FlamesVM64.well_sized in Hwf.
  assert (Hlo : Bytearray.clamp (Z.of_nat (length (FlamesVM64.memory m))) address
                = FlamesVM64.size m + address).
  { unfold Bytearray.clamp. destruct (Z.ltb_spec address 0); lia. }
  assert (Hhi : Bytearray.clamp (Z.of_nat (length (FlamesVM64.memory m))) (address + 4)
                = address + 4).
  { unfold Bytearray.clamp. destruct (Z.ltb_spec (address + 4) 0); lia. }
  split.
  - unfold FlamesVM64.read_word; unmonad. settle_cmp. cbn [andb].
    unfold Bytearray.slice. rewrite Hlo, Hhi.
    replace (Z.to_nat (address + 4 - (FlamesVM64.size m + address))) with 0%nat by lia.
    reflexivity.
  - unfold FlamesVM64.write_word; unmonad. settle_cmp. cbn [andb].
    rewrite (pack_I_in_range value Hv).
    eexists. split; [reflexivity |]. cbn [FlamesVM64.size FlamesVM64.memory
                                          FlamesVM64.set_bytes].
    unfold Bytearray.store_slice. rewrite Hlo, Hhi.
    replace (Z.max (FlamesVM64.size m + address) (address + 4))
      with (FlamesVM64.size m + address) by lia.
    split; [reflexivity |]. split; [| reflexivity].
    rewrite !length_app, length_firstn, length_skipn. cbn [length]. lia.
Qed.

(** Address -1 of a memory of 8 bytes. *)
Lemma negative_address_grows_the_memory_witness :
  exists m1,
    FlamesVM64.write_word (-1) 0x01020304 (FlamesVM64.Memory_init 8) = Ok tt m1 /\
    FlamesVM64.size m1 = 8 /\
    Z.of_nat (length (FlamesVM64.memory m1)) = 8 + 4.
Proof.
  destruct (negative_address_grows_the_memory (-1) 0x01020304 (FlamesVM64.Memory_init 8))
    as (_ & m1 & Hw & Hs & Hl & _);
    try (vm_compute; first [reflexivity | intros H; discriminate H
                            | split; [intros H; discriminate H | reflexivity]]).
  exists m1. split; [exact Hw |]. split; [exact Hs | exact Hl].
Defined.

(** X15: a byte write inside the memory of FlamesVM64 changes the byte of
    its address and no other: a byte read at any other address returns
    what it returned before, and the memory keeps its length. *)
Theorem write_byte_vm64_changes_one_byte (address value other : Z)
    (m : FlamesVM64.Memory) :
  FlamesVM64.well_sized m -> 0 <= address < FlamesVM64.size m -> other <> address ->
  exists m1,
    FlamesVM64.write_byte address value m = Ok tt m1 /\
    returned (FlamesVM64.read_byte other m1) = returned (FlamesVM64.read_byte other m) /\
    FlamesVM64.well_sized m1 /\ FlamesVM64.size m1 = FlamesVM64.size m.
Proof.
  intros Hwf Ha Hne.
  eexists. split; [exact (Flames_Frame.write_byte_inside address value m Hwf Ha) |].
  assert (Hwf1 : FlamesVM64.well_sized
                   (FlamesVM64.set_bytes
                      (Bytearray.store (FlamesVM64.memory m) (Z.to_nat address)
                         (Z.land value 0xFF)) m))
    by (apply Flames_Frame.set_bytes_well_sized;
        [apply Flames_Memory.store_length | exact Hwf]).
  split; [| split; [exact Hwf1 | reflexivity]].
  rewrite !Flames_Frame.read_byte_returned by assumption.
  cbn [FlamesVM64.size FlamesVM64.memory FlamesVM64.set_bytes].
  destruct ((0 <=? other) && (other <? FlamesVM64.size m)) eqn:E; [| reflexivity].
  apply Flames_Memory.store_other.
  apply andb_true_iff in E as [E1 E2]. apply Z.leb_le in E1. lia.
Qed.

Lemma write_byte_vm64_changes_one_byte_witness :
  exists m1,
    FlamesVM64.write_byte 2 0xAB (FlamesVM64.Memory_init 8) = Ok tt m1 /\
    returned (FlamesVM64.read_byte 3 m1)
      = returned (FlamesVM64.read_byte 3 (FlamesVM64.Memory_init 8)).
Proof.
  destruct (write_byte_vm64_changes_one_byte 2 0xAB 3 (FlamesVM64.Memory_init 8))
    as (m1 & Hw & Hr & _);
    try (vm_compute; first [reflexivity | intros H; discriminate H
                            | split; [intros H; discriminate H | reflexivity]]).
  exists m1. split; [exact Hw | exact Hr].
Defined.

(** X16: a word write inside the memory of FlamesVM64 changes the four
    bytes from its address on and no other: a byte read at an address
    outside them returns what it returned before, and the memory keeps
    its length. *)
Theorem write_word_vm64_changes_four_bytes (address value other : Z)
    (m : FlamesVM64.Memory) :
  FlamesVM64.well_sized m -> 0 <= address -> address + 3 < FlamesVM64.size m ->
  0 <= value < 2 ^ 32 ->
  other < address \/ address + 4 <= other ->
  exists m1,
    FlamesVM64.write_word address value m = Ok tt m1 /\
    returned (FlamesVM64.read_byte other m1) = returned (FlamesVM64.read_byte other m) /\
    FlamesVM64.well_sized m1 /\ FlamesVM64.size m1 = FlamesVM64.size m.
Proof.
  intros Hwf Ha Hend Hv Hother. pose proof Hwf as Hlen. unfold FlamesVM64.well_sized in Hlen.
  unfold FlamesVM64.write_word; unmonad. settle_cmp. cbn [andb].
  rewrite (pack_I_in_range value Hv).
  set (bytes := [Z.land (Z.shiftr value 24) 255; Z.land (Z.shiftr value 16) 255;
                 Z.land (Z.shiftr value 8) 255; Z.land value 255]).
  destruct (Flames_Memory.slice_store_slice (FlamesVM64.memory m) address bytes Ha
              ltac:(lia) eq_refl) as [_ Hl].
  eexists. split; [reflexivity |].
  assert (Hwf1 : FlamesVM64.well_sized
                   (FlamesVM64.set_bytes
                      (Bytearray.store_slice (FlamesVM64.memory m) address (address + 4)
                         bytes) m))
    by (apply Flames_Frame.set_bytes_well_sized; assumption).
  split; [| split; [exact Hwf1 | reflexivity]].
  rewrite !Flames_Frame.read_byte_returned by assumption.
  cbn [FlamesVM64.size FlamesVM64.memory FlamesVM64.set_bytes].
  destruct ((0 <=? other) && (other <? FlamesVM64.size m)) eqn:E; [| reflexivity].
  apply andb_true_iff in E as [E1 E2]. apply Z.leb_le in E1.
  apply Flames_Frame.nth_error_store_slice_outside; [lia | lia | reflexivity | lia].
Qed.

Lemma write_word_vm64_changes_four_bytes_witness :
  exists m1,
    FlamesVM64.write_word 4 0x01020304 (FlamesVM64.Memory_init 16) = Ok tt m1 /\
    returned (FlamesVM64.read_byte 8 m1)
      = returned (FlamesVM64.read_byte 8 (FlamesVM64.Memory_init 16)).
Proof.
  destruct (write_word_vm64_changes_four_bytes 4 0x01020304 8 (FlamesVM64.Memory_init 16))
    as (m1 & Hw & Hr & _);
    try (vm_compute; first [reflexivity | intros H; discriminate H
                            | split; [intros H; discriminate H | reflexivity]]).
  - right. vm_compute. intros H; discriminate H.
  - exists m1. split; [exact Hw | exact Hr].
Defined.

(** ** FlamesVM64: the kernel, the graphics and the cheats *)

Module Flames_Kernel.
Import FlamesVM64 Flames_Memory Flames_Run Flames_Frame.

Lemma read_word_returned (address : Z) (m : Memory) (w : Z) :
  returned (read_word address m) = Some w -> read_word address m = Ok w m.
Proof.
  intros H. pose proof (read_word_state address m) as Hs.
  destruct (read_word address m) as [w' m' | e m']; cbn in *; congruence.
Qed.

(** One turn of the loop at a word that was fetched. *)
Lemma cycle_fetched (k : Kernel) (w : Z) :
  returned (read_word (pc k) (mem k)) = Some w ->
  cycle k = execute_instruction w (set_pc (pc k + 4) k).
Proof.
  intros H. apply read_word_returned in H.
  unfold cycle; unmonad. rewrite fetch_instruction_vm64_eq, H. now destruct k.
Qed.

(** Below 2^28 the program counter has no bit among the four that a jump
    keeps. *)
Lemma high_bits_clear (p : Z) : 0 <= p < 2 ^ 28 -> Z.land p 0xF0000000 = 0.
Proof.
  intros Hp. apply Z.bits_inj'; intros n Hn. rewrite Z.land_spec, Z.bits_0.
  destruct (Z.ltb_spec n 28) as [Hlt | Hge].
  - change 0xF0000000 with (Z.shiftl 15 28).
    rewrite Z.shiftl_spec_low by lia. apply andb_false_r.
  - destruct (Z.eq_dec p 0) as [-> | Hnz]; [now rewrite Z.bits_0 |].
    rewrite Z.bits_above_log2; [reflexivity | lia |].
    assert (Z.log2 p < 28) by (apply Z.log2_lt_pow2; lia). lia.
Qed.

Lemma jump_target (p target : Z) :
  0 <= p < 2 ^ 28 -> Z.lor (Z.land p 0xF0000000) (Z.shiftl target 2) = 4 * target.
Proof.
  intros Hp. rewrite (high_bits_clear p Hp), Z.lor_0_l, Z.shiftl_mul_pow2 by lia.
  change (2 ^ 2) with 4. lia.
Qed.

(** A turn at a jump, while the program counter is below 2^28. *)
Lemma jump_target_cycle_helper (k : Kernel) (w : Z) :
  returned (read_word (pc k) (mem k)) = Some w ->
  Z.shiftr w 26 = 2 ->
  0 <= pc k + 4 < 2 ^ 28 ->
  cycle k = Ok tt (set_pc (4 * Z.land w 0x3FFFFFF) k).
Proof.
  intros Hr Hop Hpc.
  rewrite (cycle_fetched k w Hr), (execute_jump w _ Hop).
  cbn [pc set_pc]. rewrite jump_target by exact Hpc. reflexivity.
Qed.

Lemma run_S (fuel : nat) (k : Kernel) :
  run (S fuel) k = if running k then
                     match cycle k with
                     | Ok _ k' => run fuel k'
                     | Raise e k' => Some (Raise e k')
                     end
                   else Some (Ok tt k).
Proof. reflexivity. Qed.

(** What [load_bytes] stores, when every address lies inside the memory. *)
Lemma load_bytes_vm64_cells (program : list Z) : forall (i : Z) (k : Kernel),
  well_sized (mem k) -> 0 <= i -> i + Z.of_nat (length program) <= size (mem k) ->
  exists k1,
    load_bytes i program k = Ok tt k1 /\
    well_sized (mem k1) /\ size (mem k1) = size (mem k) /\
    (forall n, (n < length program)%nat ->
       nth_error (memory (mem k1)) (Z.to_nat i + n) = Some (nth n program 0 mod 256)) /\
    (forall j, (j < Z.to_nat i)%nat \/ (Z.to_nat i + length program <= j)%nat ->
       nth_error (memory (mem k1)) j = nth_error (memory (mem k)) j) /\
    pc k1 = pc k /\ registers k1 = registers k /\ running k1 = running k /\
    graphics k1 = graphics k.
Proof.
  induction program as [| byte rest IH]; intros i k Hwf Hi Hend.
  - exists k. split; [reflexivity |]. split; [exact Hwf |]. split; [reflexivity |].
    split; [intros n Hn; cbn in Hn; lia |]. auto 10.
  - cbn [length] in Hend. cbn [load_bytes]; unmonad. unfold on_memory; unmonad.
    rewrite (write_byte_inside i byte (mem k) Hwf) by lia.
    set (m1 := set_bytes (Bytearray.store (memory (mem k)) (Z.to_nat i) (Z.land byte 0xFF))
                 (mem k)).
    assert (Hwf1 : well_sized m1)
      by (apply set_bytes_well_sized; [apply store_length | exact Hwf]).
    destruct (IH (i + 1) (set_mem m1 k)) as (k1 & Hl & Hw & Hs & Hcells & Hrest & Hf);
      [exact Hwf1 | lia | cbn; lia |].
    exists k1. split; [exact Hl |]. split; [exact Hw |]. split; [exact Hs |].
    unfold well_sized in Hwf.
    split; [| split; [| exact Hf]].
    + intros [| n] Hn.
      * rewrite Hrest by lia. cbn [mem set_mem]. subst m1. cbn [memory set_bytes].
        rewrite Nat.add_0_r, store_same by lia. cbn [nth]. now rewrite land_255_mod.
      * replace (Z.to_nat i + S n)%nat with (Z.to_nat (i + 1) + n)%nat by lia.
        cbn [nth]. apply Hcells. cbn [length] in Hn. lia.
    + intros j Hj. cbn [length] in Hj. rewrite Hrest by lia.
      cbn [mem set_mem]. subst m1. cbn [memory set_bytes].
      apply store_other. lia.
Qed.

Lemma flip_enabled_length (index : nat) : forall cheats : list Cheat,
  length (flip_enabled index cheats) = length cheats.
Proof.
  induction index as [| index IH]; intros [| c rest]; cbn; auto.
Qed.

Lemma flip_enabled_twice (index : nat) : forall cheats : list Cheat,
  flip_enabled index (flip_enabled index cheats) = cheats.
Proof.
  induction index as [| index IH]; intros [| c rest]; cbn; auto.
  - rewrite negb_involutive. now destruct c.
  - now rewrite IH.
Qed.

Lemma flip_enabled_nth (index : nat) : forall (cheats : list Cheat) (i : nat),
  nth_error (flip_enabled index cheats) i =
    if Nat.eqb i index
    then option_map (fun c => mkCheat (code c) (description c) (negb (enabled c)))
           (nth_error cheats i)
    else nth_error cheats i.
Proof.
  induction index as [| index IH]; intros [| c rest] [| i]; cbn; auto.
  now destruct (Nat.eqb i index).
Qed.

End Flames_Kernel.

(** X17: a program that fits the memory of FlamesVM64 is loaded whole:
    [load_program] succeeds, byte i of the memory is element i of the
    program modulo 256, the bytes past the program are as before, and the
    program counter is 0; registers and running flag are not reset. *)
Theorem load_program_vm64_stores_low_bytes (program : list Z) (k : FlamesVM64.Kernel) :
  FlamesVM64.well_sized (FlamesVM64.mem k) ->
  Z.of_nat (length program) <= FlamesVM64.size (FlamesVM64.mem k) ->
  exists k0,
    FlamesVM64.load_program program k = Ok tt k0 /\
    FlamesVM64.pc k0 = 0 /\
    (forall n, (n < length program)%nat ->
       nth_error (FlamesVM64.memory (FlamesVM64.mem k0)) n
         = Some (nth n program 0 mod 256)) /\
    (forall j, (length program <= j)%nat ->
       nth_error (FlamesVM64.memory (FlamesVM64.mem k0)) j
         = nth_error (FlamesVM64.memory (FlamesVM64.mem k)) j) /\
    FlamesVM64.registers k0 = FlamesVM64.registers k /\
    FlamesVM64.running k0 = FlamesVM64.running k.
Proof.
  intros Hwf Hlen.
  destruct (Flames_Kernel.load_bytes_vm64_cells program 0 k Hwf ltac:(lia) ltac:(lia))
    as (k1 & Hl & _ & _ & Hcells & Hrest & _ & Hreg & Hrun & _).
  exists (FlamesVM64.set_pc 0 k1). unfold FlamesVM64.load_program; unmonad. rewrite Hl.
  split; [reflexivity |]. split; [reflexivity |].
  cbn [FlamesVM64.mem FlamesVM64.set_pc FlamesVM64.registers FlamesVM64.running].
  split; [| split; [| auto]].
  - intros n Hn. apply (Hcells n Hn).
  - intros j Hj. apply Hrest. right. cbn. lia.
Qed.

(** The first word of the demonstration program of FlamesVM64, loaded as
    the source loads it: its low byte, 0, is all that reaches the memory. *)
Lemma load_program_vm64_stores_low_bytes_witness :
  exists k0,
    FlamesVM64.load_program [0x042A0000] (Examples.flames_fresh 8) = Ok tt k0 /\
    nth_error (FlamesVM64.memory (FlamesVM64.mem k0)) 0 = Some 0.
Proof.
  destruct (load_program_vm64_stores_low_bytes [0x042A0000] (Examples.flames_fresh 8))
    as (k0 & Hl & _ & Hcells & _);
    try (vm_compute; first [reflexivity | intros H; discriminate H]).
  exists k0. split; [exact Hl |]. apply (Hcells 0%nat). cbn. lia.
Defined.

(** X18: the jump of FlamesVM64, while the program counter is below 2^28:
    a turn at a word of opcode 2 leaves the program counter at 4 times the
    26-bit target, and changes nothing else. *)
Theorem jump_goes_to_the_target (k : FlamesVM64.Kernel) (w : Z) :
  returned (FlamesVM64.read_word (FlamesVM64.pc k) (FlamesVM64.mem k)) = Some w ->
  Z.shiftr w 26 = 2 ->
  0 <= FlamesVM64.pc k + 4 < 2 ^ 28 ->
  FlamesVM64.cycle k = Ok tt (FlamesVM64.set_pc (4 * Z.land w 0x3FFFFFF) k).
Proof.
  exact (Flames_Kernel.jump_target_cycle_helper k w).
Qed.

(** The program "jump to word 3" at address 0. *)
Lemma jump_goes_to_the_target_witness :
  FlamesVM64.cycle
    (final_state (FlamesVM64.load_program [0x08; 0; 0; 3] (Examples.flames_fresh 16)))
  = Ok tt (FlamesVM64.set_pc (4 * Z.land 0x08000003 0x3FFFFFF)
             (final_state
                (FlamesVM64.load_program [0x08; 0; 0; 3] (Examples.flames_fresh 16)))).
Proof.
  apply (jump_goes_to_the_target
           (final_state (FlamesVM64.load_program [0x08; 0; 0; 3] (Examples.flames_fresh 16)))
           0x08000003);
    vm_compute; first [reflexivity | split; [intros H; discriminate H | reflexivity]].
Defined.

(** X19: [run] of FlamesVM64 need not end. A running kernel whose word at
    the program counter is a jump to that very address is, after the
    turn, the kernel it was, and no amount of fuel brings [run] to a
    result. *)
Theorem jump_to_itself_never_ends (k : FlamesVM64.Kernel) (w : Z) (fuel : nat) :
  FlamesVM64.running k = true ->
  returned (FlamesVM64.read_word (FlamesVM64.pc k) (FlamesVM64.mem k)) = Some w ->
  Z.shiftr w 26 = 2 ->
  0 <= FlamesVM64.pc k + 4 < 2 ^ 28 ->
  4 * Z.land w 0x3FFFFFF = FlamesVM64.pc k ->
  FlamesVM64.cycle k = Ok tt k /\ FlamesVM64.run fuel k = None.
Proof.
  intros Hrun Hr Hop Hpc Hself.
  assert (Hc : FlamesVM64.cycle k = Ok tt k).
  { rewrite (Flames_Kernel.jump_target_cycle_helper k w Hr Hop Hpc), Hself. now destruct k. }
  split; [exact Hc |].
  induction fuel as [| fuel IH]; [cbn; now rewrite Hrun |].
  rewrite Flames_Kernel.run_S, Hrun, Hc. exact IH.
Qed.

(** The one-word program "jump to address 0". *)
Lemma jump_to_itself_never_ends_witness :
  FlamesVM64.cycle
    (final_state (FlamesVM64.load_program [0x08; 0; 0; 0] (Examples.flames_fresh 16)))
  = Ok tt (final_state (FlamesVM64.load_program [0x08; 0; 0; 0] (Examples.flames_fresh 16)))
  /\ FlamesVM64.run 1000
       (final_state (FlamesVM64.load_program [0x08; 0; 0; 0] (Examples.flames_fresh 16)))
     = None.
Proof.
  apply (jump_to_itself_never_ends
           (final_state (FlamesVM64.load_program [0x08; 0; 0; 0] (Examples.flames_fresh 16)))
           0x08000000 1000);
    vm_compute; first [reflexivity | split; [intros H; discriminate H | reflexivity]].
Defined.

(** X20: in FlamesVM64 a turn at a word whose opcode is neither 0 to 4 nor
    63 ends [run] with the [ValueError] naming the opcode, raised to the
    caller of [run]; the kernel it leaves is the one before the turn but
    for the program counter, which has passed the word. *)
Theorem unknown_opcode_vm64_leaves_run (k : FlamesVM64.Kernel) (w : Z) (fuel : nat) :
  FlamesVM64.running k = true ->
  returned (FlamesVM64.read_word (FlamesVM64.pc k) (FlamesVM64.mem k)) = Some w ->
  4 < Z.shiftr w 26 -> Z.shiftr w 26 <> 63 ->
  FlamesVM64.run (S fuel) k =
    Some (Raise (ValueError_unknown_opcode (Z.shiftr w 26))
            (FlamesVM64.set_pc (FlamesVM64.pc k + 4) k)).
Proof.
  intros Hrun Hr H1 H2.
  rewrite Flames_Kernel.run_S, Hrun, (Flames_Kernel.cycle_fetched k w Hr).
  now rewrite (Flames_Run.execute_unknown w _ H1 H2).
Qed.

Lemma unknown_opcode_vm64_leaves_run_witness :
  FlamesVM64.run 1
    (final_state (FlamesVM64.load_program [0x14; 0; 0; 0] (Examples.flames_fresh 16)))
  = Some (Raise (ValueError_unknown_opcode (Z.shiftr 0x14000000 26))
            (FlamesVM64.set_pc
               (FlamesVM64.pc
                  (final_state
                     (FlamesVM64.load_program [0x14; 0; 0; 0] (Examples.flames_fresh 16)))
                + 4)
               (final_state
                  (FlamesVM64.load_program [0x14; 0; 0; 0] (Examples.flames_fresh 16))))).
Proof.
  apply (unknown_opcode_vm64_leaves_run
           (final_state (FlamesVM64.load_program [0x14; 0; 0; 0] (Examples.flames_fresh 16)))
           0x14000000 0);
    vm_compute; first [reflexivity | intros H; discriminate H].
Defined.

(** X21: a word of opcode 3 in FlamesVM64 draws one pixel and does nothing
    else: with x, y, color the contents of registers 1 to 3 and (x, y) on
    the 640 x 480 screen, the cell y * 640 + x of the framebuffer holds
    the color, untruncated, and the cell of every other point of the
    screen is as before; with (x, y) off the screen the framebuffer is
    unchanged. Registers, memory and program counter are untouched. *)
Theorem draw_pixel_instruction (instruction : Z) (k : FlamesVM64.Kernel) :
  let x := FlamesVM64.registers k 1 in
  let y := FlamesVM64.registers k 2 in
  let color := FlamesVM64.registers k 3 in
  Z.shiftr instruction 26 = 3 ->
  exists k',
    FlamesVM64.execute_instruction instruction k = Ok tt k' /\
    FlamesVM64.registers k' = FlamesVM64.registers k /\
    FlamesVM64.mem k' = FlamesVM64.mem k /\ FlamesVM64.pc k' = FlamesVM64.pc k /\
    FlamesVM64.running k' = FlamesVM64.running k /\
    (0 <= x < 640 /\ 0 <= y < 480 ->
     FlamesVM64.framebuffer (FlamesVM64.graphics k') (y * 640 + x) = color /\
     forall x' y', 0 <= x' < 640 -> 0 <= y' < 480 -> (x', y') <> (x, y) ->
       FlamesVM64.framebuffer (FlamesVM64.graphics k') (y' * 640 + x')
       = FlamesVM64.framebuffer (FlamesVM64.graphics k) (y' * 640 + x')) /\
    (~ (0 <= x < 640 /\ 0 <= y < 480) ->
     FlamesVM64.graphics k' = FlamesVM64.graphics k).
Proof.
  intros x y color Hop. unfold FlamesVM64.execute_instruction. rewrite Hop.
  cbn [Z.eqb Pos.eqb]. unfold FlamesVM64.on_graphics, FlamesVM64.draw_pixel; unmonad.
  fold x y color. unfold FlamesVM64.width, FlamesVM64.height.
  destruct (Z.leb_spec 0 x); destruct (Z.ltb_spec x 640); destruct (Z.leb_spec 0 y);
    destruct (Z.ltb_spec y 480); cbn [andb];
    eexists; (split; [reflexivity |]); cbn;
    repeat (split; [reflexivity |]);
    (split; [intros Hin | intros Hout]); try lia; try (now destruct k).
  rewrite Z.eqb_refl. split; [reflexivity |].
  intros x' y' Hx' Hy' Hne.
  destruct (Z.eqb_spec (y' * 640 + x') (y * 640 + x)) as [E | E]; [| reflexivity].
  exfalso. apply Hne. f_equal; lia.
Qed.

(** The pixel (10, 5) of color 7. *)
Lemma draw_pixel_instruction_witness :
  exists k',
    FlamesVM64.execute_instruction 0x0C000000 (Examples.flames_registers 16 10 5 7)
      = Ok tt k' /\
    FlamesVM64.framebuffer (FlamesVM64.graphics k') (5 * 640 + 10) = 7.
Proof.
  destruct (draw_pixel_instruction 0x0C000000 (Examples.flames_registers 16 10 5 7) eq_refl)
    as (k' & Hx & _ & _ & _ & _ & Hin & _).
  exists k'. split; [exact Hx |]. apply Hin.
  vm_compute. repeat split; first [reflexivity | intros H; discriminate H].
Defined.

(** X22: [render] of FlamesVM64 reads the low 8 bits of a cell as RGB332:
    the pixel (x, y) of the screen is ((c / 32) mod 8 * 32, (c / 4) mod 8
    * 32, c mod 4 * 64) for c the cell y * 640 + x, so red and green are
    at most 224 and blue at most 192, and two colors that agree modulo
    256 give the same pixel; the framebuffer is unchanged. *)
Theorem render_rgb332 (g : FlamesVM64.Graphics) (x y : Z) :
  0 <= x < 640 -> 0 <= y < 480 ->
  exists g',
    FlamesVM64.render g = Ok tt g' /\
    FlamesVM64.framebuffer g' = FlamesVM64.framebuffer g /\
    let c := FlamesVM64.framebuffer g (y * 640 + x) in
    FlamesVM64.photo g' x y =
      ((c / 32) mod 8 * 32, (c / 4) mod 8 * 32, c mod 4 * 64) /\
    FlamesVM64.photo g' x y =
      (((c mod 256) / 32) mod 8 * 32, ((c mod 256) / 4) mod 8 * 32, (c mod 256) mod 4 * 64) /\
    0 <= (c / 32) mod 8 * 32 <= 224 /\ 0 <= (c / 4) mod 8 * 32 <= 224 /\
    0 <= c mod 4 * 64 <= 192.
Proof.
  intros _ _. eexists. split; [reflexivity |]. split; [reflexivity |]. cbn zeta.
  set (c := FlamesVM64.framebuffer g (y * 640 + x)).
  pose proof (Z.mod_pos_bound (c / 32) 8 ltac:(lia)) as Hr.
  pose proof (Z.mod_pos_bound (c / 4) 8 ltac:(lia)) as Hg.
  pose proof (Z.mod_pos_bound c 4 ltac:(lia)) as Hb.
  assert (Hphoto : FlamesVM64.photo (final_state (FlamesVM64.render g)) x y =
                   ((c / 32) mod 8 * 32, (c / 4) mod 8 * 32, c mod 4 * 64)).
  { unfold FlamesVM64.render, modify. cbn [final_state FlamesVM64.photo].
    unfold FlamesVM64.width. fold c.
    change 0x03 with (Z.ones 2). change 0x07 with (Z.ones 3).
    rewrite !Z.land_ones, !Z.shiftr_div_pow2 by lia. reflexivity. }
  cbn [final_state FlamesVM64.render modify] in Hphoto.
  split; [exact Hphoto |]. split; [| lia].
  rewrite Hphoto.
  assert (E1 : (c / 32) mod 8 = (c mod 256 / 32) mod 8)
    by (Z.to_euclidean_division_equations; lia).
  assert (E2 : (c / 4) mod 8 = (c mod 256 / 4) mod 8)
    by (Z.to_euclidean_division_equations; lia).
  assert (E3 : c mod 4 = (c mod 256) mod 4)
    by (Z.to_euclidean_division_equations; lia).
  now rewrite <- E1, <- E2, <- E3.
Qed.

(** The pixel (10, 5) after it was drawn in color 0xE7. *)
Lemma render_rgb332_witness :
  exists g',
    FlamesVM64.render
      (final_state (FlamesVM64.draw_pixel 10 5 0xE7 FlamesVM64.Graphics_init)) = Ok tt g' /\
    FlamesVM64.photo g' 10 5 = (224, 32, 192).
Proof.
  destruct (render_rgb332
              (final_state (FlamesVM64.draw_pixel 10 5 0xE7 FlamesVM64.Graphics_init)) 10 5)
    as (g' & Hr & _ & H); [lia | lia |].
  cbn zeta in H. destruct H as (Hp & _).
  exists g'. split; [exact Hr |]. rewrite Hp. vm_compute. reflexivity.
Defined.

(** X23: [toggle_cheat] flips the enabled flag of the cheat at the index
    and nothing else; toggling twice restores the list; an index that is
    negative or not below the number of cheats changes nothing; and the
    cheat [add_cheat] appends is disabled, at the index that was the
    length of the list, where one toggle enables it. *)
Theorem toggle_cheat_flips_one_flag (index : Z) (cheats : list FlamesVM64.Cheat)
    (code description : String.string) :
  let flip c :=
    FlamesVM64.mkCheat (FlamesVM64.code c) (FlamesVM64.description c)
      (negb (FlamesVM64.enabled c)) in
  length (FlamesVM64.toggle_cheat index cheats) = length cheats /\
  FlamesVM64.toggle_cheat index (FlamesVM64.toggle_cheat index cheats) = cheats /\
  (forall i : nat,
     nth_error (FlamesVM64.toggle_cheat index cheats) i =
       if (0 <=? index) && (Z.of_nat i =? index)
       then option_map flip (nth_error cheats i)
       else nth_error cheats i) /\
  (index < 0 \/ Z.of_nat (length cheats) <= index ->
   FlamesVM64.toggle_cheat index cheats = cheats) /\
  FlamesVM64.toggle_cheat (Z.of_nat (length cheats))
    (FlamesVM64.add_cheat code description cheats)
  = cheats ++ [FlamesVM64.mkCheat code description true].
Proof.
  cbn zeta. unfold FlamesVM64.toggle_cheat. repeat split.
  - destruct (_ && _); [apply Flames_Kernel.flip_enabled_length | reflexivity].
  - destruct ((0 <=? index) && (index <? Z.of_nat (length cheats))) eqn:E.
    + rewrite Flames_Kernel.flip_enabled_length, E.
      apply Flames_Kernel.flip_enabled_twice.
    + now rewrite E.
  - intros i.
    destruct (Z.leb_spec 0 index) as [Hpos | Hneg]; [| reflexivity]. cbn [andb].
    destruct (Z.ltb_spec index (Z.of_nat (length cheats))) as [Hin | Hout].
    + rewrite Flames_Kernel.flip_enabled_nth.
      destruct (Nat.eqb_spec i (Z.to_nat index)) as [-> | Hne].
      * now replace (Z.of_nat (Z.to_nat index) =? index) with true
          by (symmetry; apply Z.eqb_eq; lia).
      * now replace (Z.of_nat i =? index) with false
          by (symmetry; apply Z.eqb_neq; lia).
    + destruct (Z.eqb_spec (Z.of_nat i) index) as [Heq | Hne]; [| reflexivity].
      assert (Hnone : nth_error cheats i = None) by (apply nth_error_None; lia).
      now rewrite Hnone.
  - intros Hout.
    replace ((0 <=? index) && (index <? Z.of_nat (length cheats))) with false;
      [reflexivity |].
    symmetry. apply andb_false_iff. lia.
  - unfold FlamesVM64.add_cheat. rewrite length_app. cbn [length].
    settle_cmp. cbn [andb]. rewrite Nat2Z.id. clear. induction cheats as [| c rest IH]; cbn; [reflexivity |].
    now rewrite IH.
Qed.

(** X24: the demonstration program of EMAUI0.2 never draws. Loaded as the
    source loads it, one memory cell per instruction word, only the low
    bytes of the nine words reach the memory; the first word fetched is
    0x010064C8, of opcode 0 and funct 8, which decodes to nothing, and
    [run] ends after that one turn with a [TypeError] in the error dialog,
    all registers still 0 and the framebuffer untouched. *)
Theorem demo_program_faults_at_once (numpy : numpy_release) :
  exists k0 k',
    EMAUI.load_program EMAUI.demo_program Examples.emaui_fresh = Ok tt k0 /\
    returned (EMAUI.read_word 0 (EMAUI.memory k0)) = Some 0x010064C8 /\
    EMAUI.decode_instruction 0x010064C8 = None /\
    EMAUI.run 1 k0 = Some (Ok tt k') /\
    EMAUI.dialogs k' = [TypeError_not_callable] /\
    EMAUI.running k' = false /\ EMAUI.cycles k' = 1 /\
    EMAUI.graphics k' = EMAUI.Graphics_init /\
    forall j, EMAUI.registers k' j = 0.
Proof.
  exists (final_state (EMAUI.load_program EMAUI.demo_program Examples.emaui_fresh)).
  exists (final_state
            (match EMAUI.run 1
                     (final_state
                        (EMAUI.load_program EMAUI.demo_program Examples.emaui_fresh)) with
             | Some o => o
             | None => Ok tt Examples.emaui_fresh
             end)).
  repeat match goal with |- _ /\ _ => split end;
    vm_compute; reflexivity.
Qed.

(** ** FlamesVM64 on a memory of zeros *)

Module Flames_Zeros.
Import FlamesVM64 Flames_Memory Flames_Run Flames_Frame Flames_Kernel.

Lemma skipn_repeat_zeros (a n : nat) : skipn a (repeat 0 n) = repeat 0 (n - a).
Proof.
  revert n; induction a as [| a IH]; intros [| n]; cbn; auto.
Qed.

Lemma firstn_4_repeat_zeros (n : nat) :
  (4 <= n)%nat -> firstn 4 (repeat 0 n) = [0; 0; 0; 0].
Proof.
  intros H. do 4 (destruct n as [| n]; [lia |]). reflexivity.
Qed.

(** The word at an address of a memory of zeros is 0. *)
Lemma read_word_zeros (address : Z) (m : Memory) :
  memory m = repeat 0 (Z.to_nat (size m)) ->
  0 <= address -> address + 3 < size m ->
  read_word address m = Ok 0 m.
Proof.
  intros Hz Ha Hend. unfold read_word; unmonad. settle_cmp. cbn [andb].
  unfold Bytearray.slice. rewrite Hz, repeat_length.
  rewrite !clamp_inside by lia.
  replace (Z.to_nat (address + 4 - address)) with 4%nat by lia.
  rewrite skipn_repeat_zeros, firstn_4_repeat_zeros by lia.
  reflexivity.
Qed.

(** The word 0 adds register 0 to itself into register 0. *)
Lemma cycle_zeros (k : Kernel) :
  memory (mem k) = repeat 0 (Z.to_nat (size (mem k))) ->
  0 <= pc k -> pc k + 3 < size (mem k) ->
  cycle k = Ok tt (set_register 0 (registers k 0 + registers k 0) (set_pc (pc k + 4) k)).
Proof.
  intros Hz Hpc Hend.
  rewrite (cycle_fetched k 0); [reflexivity |].
  now rewrite (read_word_zeros (pc k) (mem k) Hz Hpc Hend).
Qed.

Lemma cycle_past_the_end (k : Kernel) :
  size (mem k) <= pc k + 3 -> cycle k = Raise (MemoryError_invalid (pc k)) k.
Proof.
  intros Hend. unfold cycle; unmonad. rewrite fetch_instruction_vm64_eq.
  rewrite (proj1 (word_access_short (pc k) (mem k) Hend)). now destruct k.
Qed.

Lemma run_zeros (n : nat) : forall k : Kernel,
  running k = true ->
  memory (mem k) = repeat 0 (Z.to_nat (size (mem k))) ->
  0 <= pc k -> registers k 0 = 0 ->
  size (mem k) <= pc k + 4 * Z.of_nat n + 3 ->
  (n = 0%nat \/ pc k + 4 * Z.of_nat n - 1 < size (mem k)) ->
  exists k',
    run (S n) k = Some (Raise (MemoryError_invalid (pc k + 4 * Z.of_nat n)) k') /\
    pc k' = pc k + 4 * Z.of_nat n /\ mem k' = mem k.
Proof.
  induction n as [| n IH]; intros k Hrun Hz Hpc Hr0 Hend Hprev.
  - exists k. rewrite run_S, Hrun, cycle_past_the_end by lia.
    replace (pc k + 4 * Z.of_nat 0) with (pc k) by lia. auto.
  - destruct Hprev as [Hprev | Hprev]; [discriminate Hprev |].
    rewrite run_S, Hrun, cycle_zeros by (try assumption; lia).
    destruct (IH (set_register 0 (registers k 0 + registers k 0) (set_pc (pc k + 4) k)))
      as (k' & Hk' & Hpc' & Hmem'); cbn [running mem pc registers set_register set_pc];
      try assumption; try lia.
    + rewrite Z.eqb_refl. lia.
    + exists k'. cbn [pc set_register set_pc mem] in *.
      replace (pc k + 4 * Z.of_nat (S n)) with (pc k + 4 + 4 * Z.of_nat n) by lia.
      auto.
Qed.

End Flames_Zeros.

(** X25: on a memory of zeros FlamesVM64 never halts: with register 0 at 0
    and the program counter at p >= 0, [run] executes the word 0 (an
    addition of register 0 to itself) at p, p + 4, ... as long as the
    word lies inside the memory, and then leaves [run] with the
    [MemoryError] of the first address whose word does not, the memory
    itself unchanged. The demonstration program, cut down to the low
    bytes of its words, is such a memory. *)
Theorem zero_memory_runs_off_the_end (k : FlamesVM64.Kernel) :
  FlamesVM64.running k = true ->
  FlamesVM64.memory (FlamesVM64.mem k)
    = repeat 0 (Z.to_nat (FlamesVM64.size (FlamesVM64.mem k))) ->
  0 <= FlamesVM64.pc k -> FlamesVM64.registers k 0 = 0 ->
  exists (n : nat) (k' : FlamesVM64.Kernel),
    FlamesVM64.run (S n) k
      = Some (Raise (MemoryError_invalid (FlamesVM64.pc k + 4 * Z.of_nat n)) k') /\
    FlamesVM64.pc k' = FlamesVM64.pc k + 4 * Z.of_nat n /\
    FlamesVM64.size (FlamesVM64.mem k) <= FlamesVM64.pc k' + 3 /\
    (n = 0%nat \/ FlamesVM64.pc k' - 1 < FlamesVM64.size (FlamesVM64.mem k)) /\
    FlamesVM64.mem k' = FlamesVM64.mem k.
Proof.
  intros Hrun Hz Hpc Hr0.
  set (n := Z.to_nat ((FlamesVM64.size (FlamesVM64.mem k) - FlamesVM64.pc k) / 4)).
  assert (Hn : FlamesVM64.size (FlamesVM64.mem k) <= FlamesVM64.pc k + 4 * Z.of_nat n + 3 /\
               (n = 0%nat \/
                FlamesVM64.pc k + 4 * Z.of_nat n - 1 < FlamesVM64.size (FlamesVM64.mem k))).
  { subst n.
    destruct (Z.le_gt_cases (FlamesVM64.size (FlamesVM64.mem k) - FlamesVM64.pc k) 3)
      as [Hsmall | Hbig].
    - assert (E : (FlamesVM64.size (FlamesVM64.mem k) - FlamesVM64.pc k) / 4 <= 0)
        by (Z.to_euclidean_division_equations; lia).
      replace (Z.to_nat ((FlamesVM64.size (FlamesVM64.mem k) - FlamesVM64.pc k) / 4))
        with 0%nat by lia.
      split; [lia | now left].
    - rewrite Z2Nat.id by (apply Z.div_pos; lia).
      split; [| right]; Z.to_euclidean_division_equations; lia. }
  destruct Hn as [Hend Hprev].
  destruct (Flames_Zeros.run_zeros n k Hrun Hz Hpc Hr0 Hend Hprev) as (k' & Hk' & Hpc' & Hm').
  exists n, k'. rewrite Hpc'. auto 10.
Qed.

(** The demonstration program in a memory of 16 bytes: four words are
    executed, and the fetch at address 16 raises. *)
Lemma zero_memory_runs_off_the_end_witness :
  FlamesVM64.memory
    (FlamesVM64.mem
       (final_state (FlamesVM64.load_program FlamesVM64.demo_program
                       (Examples.flames_fresh 16))))
  = repeat 0 16 /\
  exists (n : nat) (k' : FlamesVM64.Kernel),
    FlamesVM64.run (S n)
      (final_state (FlamesVM64.load_program FlamesVM64.demo_program
                      (Examples.flames_fresh 16)))
      = Some (Raise (MemoryError_invalid (0 + 4 * Z.of_nat n)) k') /\
    FlamesVM64.pc k' = 0 + 4 * Z.of_nat n /\
    16 <= FlamesVM64.pc k' + 3.
Proof.
  split; [vm_compute; reflexivity |].
  destruct (zero_memory_runs_off_the_end
              (final_state (FlamesVM64.load_program FlamesVM64.demo_program
                              (Examples.flames_fresh 16))))
    as (n & k' & Hrun & Hpc & Hend & _).
  - vm_compute. reflexivity.
  - vm_compute. reflexivity.
  - vm_compute. intros H; discriminate H.
  - vm_compute. reflexivity.
  - exists n, k'. split; [exact Hrun |]. split; [exact Hpc | exact Hend].
Defined.

(** ** Word access in both machines *)

(** X26: in FlamesVM64 a word written at an address whose four bytes lie
    inside the memory is read back unchanged, and the byte at the lowest
    address holds the most significant 8 bits. In EMAUI0.2 [read_word]
    puts the four cells of a region together in the same big-endian
    order, and advances the read counter by 4. *)
Theorem word_round_trip_big_endian :
  (forall (address value : Z) (m : FlamesVM64.Memory),
     FlamesVM64.well_sized m -> 0 <= address -> address + 3 < FlamesVM64.size m ->
     0 <= value < 2 ^ 32 ->
     exists m1,
       FlamesVM64.write_word address value m = Ok tt m1 /\
       FlamesVM64.read_word address m1 = Ok value m1 /\
       FlamesVM64.read_byte address m1 = Ok (Z.shiftr value 24) m1) /\
  (forall (address : Z) (m : EMAUI.Memory) (r : EMAUI.region) (offset : Z),
     EMAUI.map_address address m = Ok (r, offset) m ->
     offset + 4 <= EMAUI.region_size r ->
     EMAUI.read_word address m =
       Ok (Z.lor (Z.shiftl (EMAUI.region_array r m offset) 24)
             (Z.lor (Z.shiftl (EMAUI.region_array r m (offset + 1)) 16)
                (Z.lor (Z.shiftl (EMAUI.region_array r m (offset + 2)) 8)
                   (EMAUI.region_array r m (offset + 3)))))
          (EMAUI.add_reads 4 m)).
Proof.
  split.
  - intros address value m Hwf Ha Hend Hv.
    destruct (Flames_Memory.write_then_read_word_flat address value m Hwf Ha Hend Hv)
      as (m1 & Hw & Hr & Hb & _).
    exists m1. auto.
  - exact EMAUI_Words.read_word_inside.
Qed.

(** The word 0x12345678 at address 4 of a FlamesVM64 memory of 16 bytes. *)
Lemma word_round_trip_big_endian_witness :
  exists m1,
    FlamesVM64.write_word 4 0x12345678 (FlamesVM64.Memory_init 16) = Ok tt m1 /\
    FlamesVM64.read_word 4 m1 = Ok 0x12345678 m1 /\
    FlamesVM64.read_byte 4 m1 = Ok (Z.shiftr 0x12345678 24) m1.
Proof.
  apply (proj1 word_round_trip_big_endian 4 0x12345678 (FlamesVM64.Memory_init 16)).
  - reflexivity.
  - vm_compute. intros H; discriminate H.
  - reflexivity.
  - vm_compute. split; [intros H; discriminate H | reflexivity].
Defined.

(** X27: a word read at an address of a region whose last byte would lie
    past the region's end fails in both machines, by different errors.
    In EMAUI0.2 [read_word] stops in [struct.unpack], on a slice shorter
    than four cells, after the read counter was advanced by 4. In
    FlamesVM64 the read, and the write as well, are refused with the
    [MemoryError] of an invalid address, the memory untouched. *)
Theorem word_read_past_the_end_fails :
  (forall (address : Z) (m : EMAUI.Memory) (r : EMAUI.region) (offset : Z),
     EMAUI.map_address address m = Ok (r, offset) m ->
     EMAUI.region_size r < offset + 4 ->
     EMAUI.read_word address m = Raise StructError (EMAUI.add_reads 4 m)) /\
  (forall (address : Z) (m : FlamesVM64.Memory),
     FlamesVM64.size m <= address + 3 ->
     FlamesVM64.read_word address m = Raise (MemoryError_invalid address) m /\
     forall value : Z,
       FlamesVM64.write_word address value m = Raise (MemoryError_invalid address) m).
Proof.
  split; [exact EMAUI_Words.read_word_short | exact Flames_Memory.word_access_short].
Qed.

(** The last three addresses of RDRAM, of the PIF ROM and of a memory of
    16 bytes. *)
Lemma word_read_past_the_end_fails_witness :
  EMAUI.read_word (EMAUI.RDRAM_END - 2) EMAUI.Memory_init =
    Raise StructError (EMAUI.add_reads 4 EMAUI.Memory_init) /\
  EMAUI.read_word EMAUI.PIF_ROM_END EMAUI.Memory_init =
    Raise StructError (EMAUI.add_reads 4 EMAUI.Memory_init) /\
  FlamesVM64.read_word 13 (FlamesVM64.Memory_init 16) =
    Raise (MemoryError_invalid 13) (FlamesVM64.Memory_init 16).
Proof.
  split; [| split].
  - apply (proj1 word_read_past_the_end_fails (EMAUI.RDRAM_END - 2) EMAUI.Memory_init
             EMAUI.RDRAM (EMAUI.RDRAM_END - 2)); reflexivity.
  - apply (proj1 word_read_past_the_end_fails EMAUI.PIF_ROM_END EMAUI.Memory_init
             EMAUI.PIF_ROM (EMAUI.PIF_ROM_SIZE - 1)); reflexivity.
  - apply (proj2 word_read_past_the_end_fails 13 (FlamesVM64.Memory_init 16)).
    vm_compute. intros H; discriminate H.
Defined.
